(** * arxiv_pdf_scraper: a shallow embedding of the scraper and its properties

    The program (src/arxiv_pdf_scraper.py) is a linear pipeline: drive a
    browser to the arXiv search page, enumerate the PDF links of the result
    page, download each one with [descargar_pdf], append the links to a CSV
    file with [guardar_en_csv], take a screenshot and close the browser.

    The pure parts (identifier extraction, URL and path construction, CSV row
    encoding) are Rocq functions on strings.  The effectful parts run in a
    state-and-exception monad over a [world] (file system, console, HTTP
    requests issued, browser actions performed); what the outside does (the
    HTTP server, the web page, the file system refusing an operation) is an
    explicit [env] the functions take as an argument.

    What the model leaves out: directories (a missing or unwritable
    directory shows as [open_error]), the progress bar (it writes to stderr;
    only the [int()] of its total is kept, since it can raise), and failures
    of browser steps other than the bounded wait for the result selector. *)

From Stdlib Require Import Strings.Ascii Strings.String Strings.Byte.
From Stdlib Require Import ZArith Lia.
From stdpp Require Import base option list strings gmap pretty.

Local Open Scope string_scope.
Local Open Scope list_scope.

(* ===================================================================== *)
(** ** Python strings: [str.split], [startswith], [endswith]              *)
(* ===================================================================== *)

Module PyStr.

(** [s.split(sep)] for a one-character separator: the pieces between the
    occurrences of [sep]; never the empty list. *)
Fixpoint split (sep : ascii) (s : string) : list string :=
  match s with
  | EmptyString => [EmptyString]
  | String c rest =>
      if Ascii.eqb c sep then EmptyString :: split sep rest
      else match split sep rest with
           | [] => [String c EmptyString]
           | piece :: pieces => String c piece :: pieces
           end
  end.

(** [l[-1]]: the last element; Python raises IndexError on an empty list. *)
Fixpoint index_last {A} (l : list A) : option A :=
  match l with
  | [] => None
  | [x] => Some x
  | _ :: l' => index_last l'
  end.

Definition startswith (s : string) (c : ascii) : bool :=
  match s with
  | String a _ => Ascii.eqb a c
  | EmptyString => false
  end.

Fixpoint endswith (s : string) (c : ascii) : bool :=
  match s with
  | EmptyString => false
  | String a EmptyString => Ascii.eqb a c
  | String _ rest => endswith rest c
  end.

(** Membership of a character in a string ([c in s]). *)
Fixpoint contains (c : ascii) (s : string) : bool :=
  match s with
  | EmptyString => false
  | String a rest => Ascii.eqb a c || contains c rest
  end.

(** [s.startswith(pre)] for a string prefix. *)
Fixpoint has_prefix (pre s : string) : bool :=
  match pre, s with
  | EmptyString, _ => true
  | String a pre', String b s' => Ascii.eqb a b && has_prefix pre' s'
  | String _ _, EmptyString => false
  end.

(** Truthiness of a string: non-empty. *)
Definition truthy (s : string) : bool :=
  match s with EmptyString => false | _ => true end.

End PyStr.

(* ===================================================================== *)
(** ** Configuration constants and the pure part of [descargar_pdf]       *)
(* ===================================================================== *)

Definition DATA_DIR : string := "data".
Definition CSV_FILE : string := "articles_arxiv.csv".

Definition slash : ascii := "/"%char.

(** [file_url.split("/")[-1]] *)
Definition file_id (file_url : string) : string :=
  default EmptyString (PyStr.index_last (PyStr.split slash file_url)).

(** [f"https://arxiv.org/pdf/{file_id}.pdf"] *)
Definition pdf_url_of (id : string) : string :=
  "https://arxiv.org/pdf/" +:+ id +:+ ".pdf".

Definition pdf_url (file_url : string) : string := pdf_url_of (file_id file_url).

(** [f"{file_id}.pdf"] *)
Definition pdf_name (id : string) : string := id +:+ ".pdf".

(** [os.path.join(a, b)] (posixpath): an absolute [b] replaces [a]; an empty
    [a] or one that ends in the separator takes [b] directly; otherwise the
    separator goes in between. *)
Definition path_join (a b : string) : string :=
  if PyStr.startswith b slash then b
  else if negb (PyStr.truthy a) || PyStr.endswith a slash then a +:+ b
  else a +:+ "/" +:+ b.

Definition pdf_path (output_dir file_url : string) : string :=
  path_join output_dir (pdf_name (file_id file_url)).

(* ===================================================================== *)
(** ** CSV rows as [csv.writer] writes them (excel dialect)               *)
(* ===================================================================== *)

Module Csv.

Definition dquote : ascii := "034"%char.
Definition comma : ascii := ","%char.
Definition cr : ascii := "013"%char.
Definition lf : ascii := "010"%char.

(** A character that forces the field to be quoted (QUOTE_MINIMAL): the
    delimiter, the quote character, or a character of the line terminator. *)
Definition special (c : ascii) : bool :=
  Ascii.eqb c comma || Ascii.eqb c dquote || Ascii.eqb c cr || Ascii.eqb c lf.

Fixpoint has_special (s : string) : bool :=
  match s with
  | EmptyString => false
  | String c rest => special c || has_special rest
  end.

(** Quote characters inside a field are doubled. *)
Fixpoint escape (s : string) : string :=
  match s with
  | EmptyString => EmptyString
  | String c rest =>
      if Ascii.eqb c dquote then String dquote (String dquote (escape rest))
      else String c (escape rest)
  end.

(** The only field of a row; an empty one is written quoted. *)
Definition field (s : string) : string :=
  if has_special s || negb (PyStr.truthy s)
  then String dquote (escape s +:+ String dquote EmptyString)
  else s.

Definition lineterminator : string := String cr (String lf EmptyString).

(** [writer.writerow([link])] *)
Definition row (link : string) : string := field link +:+ lineterminator.

(** The text of a sequence of rows. *)
Fixpoint rows (links : list string) : string :=
  match links with
  | [] => EmptyString
  | link :: rest => row link +:+ rows rest
  end.

End Csv.

(** Text written to a file opened with [encoding="utf-8"]: Rocq strings are
    byte strings, a Python [str] is represented by its UTF-8 bytes. *)
Definition encode (s : string) : list byte := list_byte_of_string s.

(* ===================================================================== *)
(** ** The world the program acts on, and its environment                *)
(* ===================================================================== *)

(** Exceptions the program can meet. *)
Inductive exn : Type :=
| RequestException (msg : string)   (* requests.exceptions.RequestException and subclasses *)
| TimeoutError (msg : string)       (* playwright: wait_for_selector timed out *)
| OSError (msg : string)            (* open / write refused by the file system *)
| ValueError (msg : string).        (* int() of a malformed header *)

(** [str(e)] *)
Definition exn_str (e : exn) : string :=
  match e with
  | RequestException m | TimeoutError m | OSError m | ValueError m => m
  end.

(** [isinstance(e, requests.exceptions.RequestException)] *)
Definition is_RequestException (e : exn) : bool :=
  match e with RequestException _ => true | _ => false end.

(** [isinstance(e, Exception)] *)
Definition is_Exception (e : exn) : bool := true.

(** An HTTP GET as [requests.get] is called. *)
Record request : Type := mkRequest {
  req_url : string;
  req_stream : bool;
  req_timeout : Z;
  req_headers : list (string * string)
}.

(** [response.headers.get("content-length", 0)] seen through [int()]. *)
Inductive content_length : Type :=
| LengthAbsent              (* no header: the default 0 *)
| LengthInt (n : Z)         (* the header is an integer literal *)
| LengthMalformed.          (* int() raises ValueError *)

(** A response with a streamed body: [body_received] are the bytes that
    arrive; [body_error] is [Some msg] when the connection breaks after them
    and [iter_content] raises a RequestException. *)
Record response : Type := mkResponse {
  status_code : Z;
  header_content_length : content_length;
  body_received : list byte;
  body_error : option string
}.

Inductive get_outcome : Type :=
| GetRaises (msg : string)          (* connection error, timeout: RequestException *)
| GetReturns (r : response).

(** Browser actions, as the script performs them. *)
Inductive action : Type :=
| Launch (browser_name : string) (headless : bool) (slow_mo : Z)
| NewPage
| Goto (url : string)
| Fill (placeholder text : string)
| Click (role : string) (nth : nat)
| WaitForSelector (selector : string) (timeout : Z)
| Screenshot (path : string)
| Close.

(** The result page: the [href] attribute of each element the locator
    matches ([None] when [get_attribute] returns None), the screenshot image
    and the page title. *)
Record page : Type := mkPage {
  page_hrefs : list (option string);
  page_png : list byte;
  page_title : string
}.

Inductive wait_outcome : Type :=
| WaitTimesOut (msg : string)
| WaitRenders (pg : page).

Record world : Type := mkWorld {
  files : gmap string (list byte);   (* the file system: path to content *)
  stdout : list string;              (* lines printed, oldest first *)
  requests : list request;           (* HTTP requests issued, oldest first *)
  browser : list action              (* browser actions performed, oldest first *)
}.

(** What the outside does.  [http_get n req] answers the request issued
    after [n] earlier ones; [browse trace] is what the page shows after the
    actions [trace]; [open_error] and [write_error] say when the file system
    refuses an operation (with the error message). *)
Record env : Type := mkEnv {
  http_get : nat -> request -> get_outcome;
  browse : list action -> wait_outcome;
  open_error : gmap string (list byte) -> string -> option string;
  write_error : gmap string (list byte) -> string -> list byte -> option string
}.

(* ===================================================================== *)
(** ** The state-and-exception monad                                      *)
(* ===================================================================== *)

Inductive result (A : Type) : Type :=
| Val (a : A)
| Exc (e : exn).
Arguments Val {A} a.
Arguments Exc {A} e.

Definition M (A : Type) : Type := world -> result A * world.

Definition ret {A} (a : A) : M A := fun w => (Val a, w).

Definition bind {A B} (m : M A) (k : A -> M B) : M B :=
  fun w => match m w with
           | (Val a, w') => k a w'
           | (Exc e, w') => (Exc e, w')
           end.

Definition raise {A} (e : exn) : M A := fun w => (Exc e, w).

(** [try: body except <handles> as e: handler e] *)
Definition try_except {A} (body : M A) (handles : exn -> bool) (handler : exn -> M A) : M A :=
  fun w => match body w with
           | (Exc e, w') => if handles e then handler e w' else (Exc e, w')
           | r => r
           end.

Declare Scope prog_scope.
Delimit Scope prog_scope with prog.
Notation "x <- m ;; k" := (bind m (fun x => k))
  (at level 100, m at next level, right associativity) : prog_scope.
Notation "m ;;; k" := (bind m (fun _ => k))
  (at level 100, right associativity) : prog_scope.
Local Open Scope prog_scope.

Definition set_files (f : gmap string (list byte)) (w : world) : world :=
  mkWorld f (stdout w) (requests w) (browser w).

(** [print(line)] *)
Definition print (line : string) : M unit :=
  fun w => (Val tt, mkWorld (files w) (stdout w ++ [line]) (requests w) (browser w)).

(** A browser action. *)
Definition act (a : action) : M unit :=
  fun w => (Val tt, mkWorld (files w) (stdout w) (requests w) (browser w ++ [a])).

(* ===================================================================== *)
(** ** The program                                                        *)
(* ===================================================================== *)

(** [response.iter_content(chunk_size)]: the received bytes in pieces of
    [chunk_size]; [fuel] bounds the number of pieces. *)
Fixpoint chunks_upto (fuel chunk_size : nat) (data : list byte) : list (list byte) :=
  match fuel with
  | O => []
  | S fuel' =>
      match data with
      | [] => []
      | _ => take chunk_size data :: chunks_upto fuel' chunk_size (drop chunk_size data)
      end
  end.

Definition iter_content (r : response) (chunk_size : nat) : list (list byte) :=
  chunks_upto (length (body_received r)) chunk_size (body_received r).

Definition user_agent : list (string * string) :=
  [("user-agent",
    "Mozilla/5.0 (X11; Linux x86_64) AppleWebKit/537.36 (KHTML, like Gecko) " +:+
    "Chrome/134.0.0.0 Safari/537.36")].

Definition pdf_request (url : string) : request := mkRequest url true 10 user_agent.

Definition selector : string := "xpath=//span/a[contains(@href, 'arxiv.org/pdf')]".

(** [if href:] on the value of [get_attribute("href")]: None and the empty
    string are falsy. *)
Definition href_truthy (href : option string) : option string :=
  match href with
  | Some h => if PyStr.truthy h then Some h else None
  | None => None
  end.

Section Program.

Variable E : env.

(** [open(path, "wb")]: create the file or truncate it. *)
Definition open_wb (path : string) : M unit :=
  fun w => match open_error E (files w) path with
           | Some msg => (Exc (OSError msg), w)
           | None => (Val tt, set_files (<[path := []]> (files w)) w)
           end.

(** [open(path, "a")]: create the file if it is absent, keep its content. *)
Definition open_a (path : string) : M unit :=
  fun w => match open_error E (files w) path with
           | Some msg => (Exc (OSError msg), w)
           | None => (Val tt, set_files (<[path := default [] (files w !! path)]> (files w)) w)
           end.

(** [f.write(data)] on the file open at [path]: the data goes to its end. *)
Definition write (path : string) (data : list byte) : M unit :=
  fun w => match write_error E (files w) path data with
           | Some msg => (Exc (OSError msg), w)
           | None => (Val tt, set_files (<[path := default [] (files w !! path) ++ data]> (files w)) w)
           end.

(** [requests.get(url, stream=True, timeout=10, headers=user_agent)] *)
Definition requests_get (url : string) : M response :=
  fun w => let req := pdf_request url in
           let w' := mkWorld (files w) (stdout w) (requests w ++ [req]) (browser w) in
           match http_get E (length (requests w)) req with
           | GetRaises msg => (Exc (RequestException msg), w')
           | GetReturns r => (Val r, w')
           end.

(** [int(response.headers.get("content-length", 0))], the total of the
    progress bar (the bar itself writes to stderr, which is not modelled). *)
Definition bar_total (r : response) : M Z :=
  match header_content_length r with
  | LengthAbsent => ret 0%Z
  | LengthInt n => ret n
  | LengthMalformed => raise (ValueError "invalid literal for int() with base 10")
  end.

(** [for chunk in chunks: f.write(chunk)] *)
Fixpoint write_chunks (path : string) (chunks : list (list byte)) : M unit :=
  match chunks with
  | [] => ret tt
  | chunk :: rest => write path chunk ;;; write_chunks path rest
  end.

(** The loop over [response.iter_content(chunk_size=1024)]: the chunks that
    arrive are written; a broken connection then raises. *)
Definition stream_to (path : string) (r : response) : M unit :=
  write_chunks path (iter_content r 1024) ;;;
  match body_error r with
  | Some msg => raise (RequestException msg)
  | None => ret tt
  end.

Definition descargar_pdf (file_url output_dir : string) : M (option string) :=
  let file_id := file_id file_url in
  let pdf_url := pdf_url_of file_id in
  try_except
    (response <- requests_get pdf_url ;;
     if (status_code response =? 200)%Z then
       let file_path := path_join output_dir (pdf_name file_id) in
       open_wb file_path ;;;
       _total <- bar_total response ;;
       stream_to file_path response ;;;
       print ("Archivo descargado: " +:+ file_path) ;;;
       ret (Some file_path)
     else
       print ("Error al descargar " +:+ pdf_url +:+ ": Código " +:+ pretty (status_code response)) ;;;
       ret None)
    is_RequestException
    (fun e =>
       print ("Error en la descarga de " +:+ pdf_url +:+ ": " +:+ exn_str e) ;;;
       ret None).

(** [for link in links: writer.writerow([link])] *)
Fixpoint write_rows (path : string) (links : list string) : M unit :=
  match links with
  | [] => ret tt
  | link :: rest => write path (encode (Csv.row link)) ;;; write_rows path rest
  end.

Definition guardar_en_csv_body (links : list string) (file_path : string) : M unit :=
  open_a file_path ;;;
  write_rows file_path links ;;;
  print (pretty (length links) +:+ " enlaces guardados en " +:+ file_path).

Definition guardar_en_csv (links : list string) (file_path : string) : M unit :=
  try_except
    (guardar_en_csv_body links file_path)
    is_Exception
    (fun e => print ("Error al escribir en CSV: " +:+ exn_str e)).

(** [page.wait_for_selector(selector, timeout=5000)] *)
Definition wait_for_selector (sel : string) (timeout : Z) : M page :=
  act (WaitForSelector sel timeout) ;;;
  fun w => match browse E (browser w) with
           | WaitTimesOut msg => (Exc (TimeoutError msg), w)
           | WaitRenders pg => (Val pg, w)
           end.

(** [page.screenshot(path=...)] writes the image file. *)
Definition screenshot (pg : page) (path : string) : M unit :=
  act (Screenshot path) ;;;
  open_wb path ;;;
  write path (page_png pg).

(** The loop of [scrape_arxiv] over the located elements: every truthy
    href is appended to [pdf_links] and downloaded. *)
Fixpoint recorrer (hrefs : list (option string)) (pdf_links : list string) : M (list string) :=
  match hrefs with
  | [] => ret pdf_links
  | href :: rest =>
      match href_truthy href with
      | Some h =>
          _ <- descargar_pdf h DATA_DIR ;;
          recorrer rest (pdf_links ++ [h])
      | None => recorrer rest pdf_links
      end
  end.

(** Lines 88-122 of [scrape_arxiv]: the search and the download loop. *)
Definition buscar_y_descargar (search_term : string) : M (page * list string) :=
  act (Launch "firefox" false 2000) ;;;
  act NewPage ;;;
  print ("Buscando artículos con el término: " +:+ search_term) ;;;
  act (Goto "https://arxiv.org/search/") ;;;
  act (Fill "Search term..." search_term) ;;;
  act (Click "button" 1) ;;;
  pg <- wait_for_selector selector 5000 ;;
  let count := length (page_hrefs pg) in
  print ("Se encontraron " +:+ pretty count +:+ " PDFs para descargar.") ;;;
  pdf_links <- recorrer (page_hrefs pg) [] ;;
  ret (pg, pdf_links).

(** Lines 124-133: recording, screenshot, title, close. *)
Definition registrar_y_cerrar (pg : page) (pdf_links : list string) : M unit :=
  guardar_en_csv pdf_links CSV_FILE ;;;
  screenshot pg "example.png" ;;;
  print ("Página cargada: " +:+ page_title pg) ;;;
  act Close.

Definition scrape_arxiv (search_term : string) : M unit :=
  r <- buscar_y_descargar search_term ;;
  registrar_y_cerrar (fst r) (snd r).

End Program.

(** [if __name__ == "__main__"] *)
Definition main (E : env) : M unit := scrape_arxiv E "learning".

(* ===================================================================== *)
(** ** Predicates the statements use                                      *)
(* ===================================================================== *)

(** Paths under [data/]. *)
Definition under_data (p : string) : bool := PyStr.has_prefix "data/" p.

(** The browser actions of a run up to and including the bounded wait. *)
Definition search_actions (search_term : string) : list action :=
  [Launch "firefox" false 2000; NewPage; Goto "https://arxiv.org/search/";
   Fill "Search term..." search_term; Click "button" 1;
   WaitForSelector selector 5000].

(** The world when the wait ends. *)
Definition searching (search_term : string) (w : world) : world :=
  mkWorld (files w)
          (stdout w ++ ["Buscando artículos con el término: " +:+ search_term])
          (requests w)
          (browser w ++ search_actions search_term).


(** The file system lets [path] be opened and written, whatever its state. *)
Definition writable (E : env) (path : string) : Prop :=
  (forall fs, open_error E fs path = None) /\
  (forall fs data, write_error E fs path data = None).

(** [m] takes every world to one related to it by [R], whether it returns
    or raises. *)
Definition respects (R : world -> world -> Prop) {A} (m : M A) : Prop :=
  forall w, R w (snd (m w)).

(** The files whose path satisfies [P] are the same in both worlds. *)
Definition same_files (P : string -> Prop) (w w' : world) : Prop :=
  forall p, P p -> files w' !! p = files w !! p.

(** The browser has only performed further actions. *)
Definition browser_grows (w w' : world) : Prop :=
  browser w `prefix_of` browser w'.

(** The browser has performed nothing in between. *)
Definition same_browser (w w' : world) : Prop := browser w' = browser w.

(** The file at [path], if there was one, has only been appended to. *)
Definition appended_only (path : string) (w w' : world) : Prop :=
  forall c, files w !! path = Some c ->
            exists c', files w' !! path = Some (c ++ c').

(** [m] issues no HTTP request. *)
Definition no_request {A} (m : M A) : Prop :=
  forall w, requests (snd (m w)) = requests w.

(** [m] issues exactly the request [req]. *)
Definition one_request (req : request) {A} (m : M A) : Prop :=
  forall w, requests (snd (m w)) = requests w ++ [req].

(* ===================================================================== *)
(** ** Concrete scenarios                                                 *)
(* ===================================================================== *)

Module Demo.

Definition link1 : string := "https://arxiv.org/pdf/2301.04567".
Definition link2 : string := "https://arxiv.org/abs/2301.04567".
Definition link3 : string := "https://arxiv.org/pdf/2302.00001".

Definition body1 : list byte := encode "%PDF-1.5 first".
Definition body2 : list byte := encode "%PDF-1.7 second".

(** The result page: three links and an element without href. *)
Definition results : page :=
  mkPage [Some link1; None; Some link2; Some link3]
         (encode "PNG") "Search | arXiv e-print repository".

Definition no_open_error : gmap string (list byte) -> string -> option string :=
  fun _ _ => None.
Definition no_write_error
  : gmap string (list byte) -> string -> list byte -> option string :=
  fun _ _ _ => None.

(** The first two requests are answered 200 with different bodies, the
    third 404, any later one finds the network down. *)
Definition answers (n : nat) (req : request) : get_outcome :=
  match n with
  | 0 => GetReturns (mkResponse 200 (LengthInt 14) body1 None)
  | 1 => GetReturns (mkResponse 200 LengthAbsent body2 None)
  | 2 => GetReturns (mkResponse 404 LengthAbsent [] None)
  | _ => GetRaises "Connection refused"
  end.

(** Everything works: the page renders whatever was searched for. *)
Definition E_ok : env :=
  mkEnv answers (fun _ => WaitRenders results) no_open_error no_write_error.

(** The connection breaks after the first bytes of a 200 response. *)
Definition E_broken : env :=
  mkEnv (fun _ _ => GetReturns (mkResponse 200 (LengthInt 14)
                                  (encode "%PDF-1.5") (Some "Connection broken")))
        (fun _ => WaitRenders results) no_open_error no_write_error.

(** Every download is answered 404. *)
Definition E_404 : env :=
  mkEnv (fun _ _ => GetReturns (mkResponse 404 LengthAbsent (encode "Not Found") None))
        (fun _ => WaitRenders results) no_open_error no_write_error.

(** The result links never render. *)
Definition E_timeout : env :=
  mkEnv answers (fun _ => WaitTimesOut "Timeout 5000ms exceeded.")
        no_open_error no_write_error.

(** The list file cannot be opened. *)
Definition E_readonly : env :=
  mkEnv answers (fun _ => WaitRenders results)
        (fun _ path => if String.eqb path CSV_FILE
                       then Some "[Errno 13] Permission denied" else None)
        no_write_error.

(** A world with a list file from an earlier run. *)
Definition w0 : world :=
  mkWorld {[ CSV_FILE := encode (Csv.row "https://arxiv.org/pdf/1706.03762") ]}
          [] [] [].

End Demo.

(* ===================================================================== *)
(** ** Further scenarios                                                  *)
(* ===================================================================== *)

Module Cases.

(** Nothing can be opened under [data/]. *)
Definition E_denied : env :=
  mkEnv Demo.answers (fun _ => WaitRenders Demo.results)
        (fun _ path => if under_data path
                       then Some "[Errno 13] Permission denied" else None)
        Demo.no_write_error.

(** Every download is answered 200 with a length header that is no number. *)
Definition E_malformed : env :=
  mkEnv (fun _ _ => GetReturns (mkResponse 200 LengthMalformed Demo.body1 None))
        (fun _ => WaitRenders Demo.results)
        Demo.no_open_error Demo.no_write_error.

(** The network is down. *)
Definition E_down : env :=
  mkEnv (fun _ _ => GetRaises "Connection refused")
        (fun _ => WaitRenders Demo.results)
        Demo.no_open_error Demo.no_write_error.

(** A world that already holds a download of the first demo link. *)
Definition w_old : world :=
  mkWorld {[ "data/2301.04567.pdf" := Demo.body2 ]} [] [] [].

End Cases.

(* ===================================================================== *)
(** ** Worked examples of the identifier                                  *)
(* ===================================================================== *)

Example file_id_example : file_id "https://arxiv.org/pdf/2301.04567" = "2301.04567".
Proof. reflexivity. Qed.

Example pdf_url_example :
  pdf_url "https://arxiv.org/pdf/2301.04567" = "https://arxiv.org/pdf/2301.04567.pdf".
Proof. reflexivity. Qed.

Example pdf_path_example :
  pdf_path DATA_DIR "https://arxiv.org/pdf/2301.04567" = "data/2301.04567.pdf".
Proof. reflexivity. Qed.

(* ===================================================================== *)
(** ** Facts about the identifier, the download URL and the file path     *)
(* ===================================================================== *)

Section Identifier.

Lemma split_not_nil sep s : PyStr.split sep s <> [].
Proof.
  destruct s as [|c s]; simpl; [discriminate|].
  destruct (Ascii.eqb c sep); [discriminate|].
  destruct (PyStr.split sep s); discriminate.
Qed.

(** Without the separator there is one piece: the string itself. *)
Lemma split_no_sep sep s :
  PyStr.contains sep s = false -> PyStr.split sep s = [s].
Proof.
  induction s as [|c s IH]; simpl; [reflexivity|].
  destruct (Ascii.eqb c sep); simpl; [discriminate|].
  intros H. rewrite (IH H). reflexivity.
Qed.

(** With the separator there are at least two pieces. *)
Lemma split_with_sep sep s :
  PyStr.contains sep s = true ->
  exists h x t, PyStr.split sep s = h :: x :: t.
Proof.
  induction s as [|c s IH]; simpl; [discriminate|].
  destruct (Ascii.eqb c sep) eqn:Hc; simpl.
  - intros _. destruct (PyStr.split sep s) as [|x t] eqn:Hs.
    + destruct (split_not_nil _ _ Hs).
    + eauto.
  - intros H. destruct (IH H) as (h & x & t & ->). eauto.
Qed.

Lemma contains_app_sep sep p s :
  PyStr.contains sep (p +:+ String sep s) = true.
Proof.
  induction p as [|c p IH]; simpl.
  - rewrite Ascii.eqb_refl. reflexivity.
  - rewrite IH. apply orb_true_r.
Qed.

Lemma contains_app sep p s :
  PyStr.contains sep (p +:+ s) = PyStr.contains sep p || PyStr.contains sep s.
Proof.
  induction p as [|c p IH]; simpl; [reflexivity|].
  rewrite IH. apply orb_assoc.
Qed.

Lemma file_id_slash s : file_id (String slash s) = file_id s.
Proof.
  unfold file_id. simpl.
  destruct (PyStr.split slash s) as [|x t] eqn:Hs; [|reflexivity].
  destruct (split_not_nil _ _ Hs).
Qed.

Lemma file_id_skip c s :
  PyStr.contains slash s = true -> file_id (String c s) = file_id s.
Proof.
  intros H. destruct (Ascii.eqb c slash) eqn:Hc.
  - apply Ascii.eqb_eq in Hc. subst c. apply file_id_slash.
  - unfold file_id. simpl. rewrite Hc.
    destruct (split_with_sep _ _ H) as (h & x & t & ->). reflexivity.
Qed.

(** A string without '/' is its own identifier. *)
Lemma file_id_no_slash s :
  PyStr.contains slash s = false -> file_id s = s.
Proof.
  intros H. unfold file_id. rewrite (split_no_sep _ _ H). reflexivity.
Qed.

(** Everything up to and including a '/' is dropped. *)
Lemma file_id_app p s : file_id (p +:+ String slash s) = file_id s.
Proof.
  induction p as [|c p IH].
  - apply file_id_slash.
  - change (file_id (String c (p +:+ String slash s)) = file_id s).
    rewrite file_id_skip; [exact IH | apply contains_app_sep].
Qed.

(** The identifier is what follows the last '/'. *)
Lemma file_id_after_last_slash p s :
  PyStr.contains slash s = false -> file_id (p +:+ String slash s) = s.
Proof.
  intros H. rewrite file_id_app. apply file_id_no_slash, H.
Qed.

(** The identifier never contains a '/'. *)
Lemma file_id_has_no_slash u : PyStr.contains slash (file_id u) = false.
Proof.
  induction u as [|c u IH]; [reflexivity|].
  destruct (PyStr.contains slash u) eqn:Hu.
  - rewrite file_id_skip; assumption.
  - destruct (Ascii.eqb c slash) eqn:Hc.
    + apply Ascii.eqb_eq in Hc. subst c.
      rewrite file_id_slash, file_id_no_slash; assumption.
    + rewrite file_id_no_slash; simpl; rewrite Hc; assumption.
Qed.

(** The identifier is a suffix of the URL: the whole URL, or what follows
    one of its '/'. *)
Lemma file_id_suffix u :
  u = file_id u \/ exists p, u = p +:+ String slash (file_id u).
Proof.
  induction u as [|c u IH]; [left; reflexivity|].
  destruct (PyStr.contains slash u) eqn:Hu.
  - rewrite (file_id_skip _ _ Hu). right.
    destruct IH as [IH | [p IH]].
    + rewrite IH, file_id_has_no_slash in Hu. discriminate.
    + exists (String c p).
      change (String c u = String c (p +:+ String slash (file_id u))).
      f_equal. exact IH.
  - destruct (Ascii.eqb c slash) eqn:Hc.
    + apply Ascii.eqb_eq in Hc. subst c. right. exists EmptyString.
      rewrite file_id_slash, (file_id_no_slash _ Hu). reflexivity.
    + left. rewrite file_id_no_slash; [reflexivity|].
      simpl. rewrite Hc. exact Hu.
Qed.

Lemma pdf_name_not_absolute id :
  PyStr.startswith id slash = false ->
  PyStr.startswith (pdf_name id) slash = false.
Proof. destruct id; simpl; auto. Qed.

Lemma no_slash_not_absolute s :
  PyStr.contains slash s = false -> PyStr.startswith s slash = false.
Proof. destruct s; simpl; [reflexivity|]. apply orb_false_elim. Qed.

(** The output file is the directory, a separator where one is needed, and
    [<identifier>.pdf]. *)
Lemma pdf_path_eq d u :
  pdf_path d u =
  d +:+ (if negb (PyStr.truthy d) || PyStr.endswith d slash then EmptyString else "/")
    +:+ file_id u +:+ ".pdf".
Proof.
  unfold pdf_path, path_join.
  rewrite pdf_name_not_absolute
    by (apply no_slash_not_absolute, file_id_has_no_slash).
  destruct (negb (PyStr.truthy d) || PyStr.endswith d slash); reflexivity.
Qed.

Lemma pdf_path_data u : pdf_path DATA_DIR u = "data/" +:+ file_id u +:+ ".pdf".
Proof. rewrite pdf_path_eq. reflexivity. Qed.

Lemma pdf_path_under_data u : under_data (pdf_path DATA_DIR u) = true.
Proof. rewrite pdf_path_data. reflexivity. Qed.

Lemma pdf_path_not_csv u : pdf_path DATA_DIR u <> CSV_FILE.
Proof.
  intros H. pose proof (pdf_path_under_data u) as Hd.
  rewrite H in Hd. discriminate.
Qed.

End Identifier.

(* ===================================================================== *)
(** ** Reasoning about programs in [M]                                    *)
(* ===================================================================== *)

Lemma bind_val {A B} (m : M A) (k : A -> M B) w a w1 :
  m w = (Val a, w1) -> bind m k w = k a w1.
Proof. unfold bind. intros ->. reflexivity. Qed.

Lemma bind_exc {A B} (m : M A) (k : A -> M B) w e w1 :
  m w = (Exc e, w1) -> bind m k w = (Exc e, w1).
Proof. unfold bind. intros ->. reflexivity. Qed.

Lemma try_val {A} (body : M A) handles handler w a w1 :
  body w = (Val a, w1) -> try_except body handles handler w = (Val a, w1).
Proof. unfold try_except. intros ->. reflexivity. Qed.

Lemma try_caught {A} (body : M A) handles handler w e w1 :
  body w = (Exc e, w1) -> handles e = true ->
  try_except body handles handler w = handler e w1.
Proof. unfold try_except. intros -> ->. reflexivity. Qed.

Lemma try_uncaught {A} (body : M A) handles handler w e w1 :
  body w = (Exc e, w1) -> handles e = false ->
  try_except body handles handler w = (Exc e, w1).
Proof. unfold try_except. intros -> ->. reflexivity. Qed.

Lemma set_files_same w : set_files (files w) w = w.
Proof. destruct w; reflexivity. Qed.

Lemma encode_app s t : encode (s +:+ t) = encode s ++ encode t.
Proof.
  unfold encode, list_byte_of_string.
  induction s as [|c s IH]; simpl; [reflexivity|].
  rewrite IH. reflexivity.
Qed.

(** Cutting into chunks loses nothing. *)
Lemma chunks_upto_concat fuel size (data : list byte) :
  0 < size -> length data <= fuel ->
  concat (chunks_upto fuel size data) = data.
Proof.
  intros Hsize. revert data.
  induction fuel as [|fuel IH]; intros data Hlen; simpl.
  - destruct data; [reflexivity | simpl in Hlen; lia].
  - destruct data as [|b data]; [reflexivity|].
    change (concat (take size (b :: data)
                    :: chunks_upto fuel size (drop size (b :: data)))
            = b :: data).
    rewrite concat_cons, IH, take_drop; [reflexivity|].
    rewrite length_drop. simpl in *. lia.
Qed.

Lemma iter_content_concat r size :
  0 < size -> concat (iter_content r size) = body_received r.
Proof. intros H. apply chunks_upto_concat; [exact H | reflexivity]. Qed.


(* ===================================================================== *)
(** ** Frame properties: what a program leaves alone                    *)
(* ===================================================================== *)

Section Respect.

Variable E : env.
Variable R : world -> world -> Prop.
Variable touch : string -> Prop.

Hypothesis R_refl : forall w, R w w.
Hypothesis R_trans : forall w1 w2 w3, R w1 w2 -> R w2 w3 -> R w1 w3.
Hypothesis R_console :
  forall w out reqs, R w (mkWorld (files w) out reqs (browser w)).
Hypothesis R_act :
  forall w a, R w (mkWorld (files w) (stdout w) (requests w) (browser w ++ [a])).
Hypothesis R_file :
  forall w path c, touch path -> R w (set_files (<[path := c]> (files w)) w).

Lemma respects_ret {A} (a : A) : respects R (ret a).
Proof. intros w. apply R_refl. Qed.

Lemma respects_raise {A} e : respects R (@raise A e).
Proof. intros w. apply R_refl. Qed.

Lemma respects_bind {A B} (m : M A) (k : A -> M B) :
  respects R m -> (forall a, respects R (k a)) -> respects R (bind m k).
Proof.
  intros Hm Hk w. specialize (Hm w). unfold bind.
  destruct (m w) as [[a|e] w1]; simpl in *; [|exact Hm].
  eapply R_trans; [exact Hm | apply Hk].
Qed.

Lemma respects_try {A} (body : M A) handles handler :
  respects R body -> (forall e, respects R (handler e)) ->
  respects R (try_except body handles handler).
Proof.
  intros Hb Hh w. specialize (Hb w). unfold try_except.
  destruct (body w) as [[a|e] w1]; simpl in *; [exact Hb|].
  destruct (handles e); simpl; [|exact Hb].
  eapply R_trans; [exact Hb | apply Hh].
Qed.

Lemma respects_print line : respects R (print line).
Proof. intros w. apply R_console. Qed.

Lemma respects_act a : respects R (act a).
Proof. intros w. apply R_act. Qed.

Lemma respects_open_wb path : touch path -> respects R (open_wb E path).
Proof.
  intros Ht w. unfold open_wb.
  destruct (open_error E (files w) path); simpl; auto.
Qed.

Lemma respects_open_a path : touch path -> respects R (open_a E path).
Proof.
  intros Ht w. unfold open_a.
  destruct (open_error E (files w) path); simpl; auto.
Qed.

Lemma respects_write path data : touch path -> respects R (write E path data).
Proof.
  intros Ht w. unfold write.
  destruct (write_error E (files w) path data); simpl; auto.
Qed.

Lemma respects_requests_get url : respects R (requests_get E url).
Proof.
  intros w. unfold requests_get.
  destruct (http_get E _ _); apply R_console.
Qed.

Lemma respects_bar_total r : respects R (bar_total r).
Proof.
  unfold bar_total.
  destruct (header_content_length r); auto using @respects_ret, @respects_raise.
Qed.

Lemma respects_write_chunks path chunks :
  touch path -> respects R (write_chunks E path chunks).
Proof.
  intros Ht. induction chunks as [|c cs IH]; simpl.
  - apply respects_ret.
  - apply respects_bind; [apply respects_write, Ht | intros _; exact IH].
Qed.

Lemma respects_write_rows path links :
  touch path -> respects R (write_rows E path links).
Proof.
  intros Ht. induction links as [|l ls IH]; simpl.
  - apply respects_ret.
  - apply respects_bind; [apply respects_write, Ht | intros _; exact IH].
Qed.

Lemma respects_stream_to path r :
  touch path -> respects R (stream_to E path r).
Proof.
  intros Ht. unfold stream_to.
  apply respects_bind; [apply respects_write_chunks, Ht|].
  intros _. destruct (body_error r); [apply respects_raise | apply respects_ret].
Qed.

Lemma respects_descargar_pdf u d :
  touch (pdf_path d u) -> respects R (descargar_pdf E u d).
Proof.
  intros Ht. unfold descargar_pdf. fold (pdf_path d u). apply respects_try.
  - apply respects_bind; [apply respects_requests_get|].
    intros r. destruct (status_code r =? 200)%Z.
    + apply respects_bind; [apply respects_open_wb, Ht|]. intros _.
      apply respects_bind; [apply respects_bar_total|]. intros _.
      apply respects_bind; [apply respects_stream_to, Ht|]. intros _.
      apply respects_bind; [apply respects_print|]. intros _.
      apply respects_ret.
    + apply respects_bind; [apply respects_print|]. intros _.
      apply respects_ret.
  - intros e. apply respects_bind; [apply respects_print|]. intros _.
    apply respects_ret.
Qed.

Lemma respects_guardar_en_csv links path :
  touch path -> respects R (guardar_en_csv E links path).
Proof.
  intros Ht. unfold guardar_en_csv, guardar_en_csv_body. apply respects_try.
  - apply respects_bind; [apply respects_open_a, Ht|]. intros _.
    apply respects_bind; [apply respects_write_rows, Ht|]. intros _.
    apply respects_print.
  - intros e. apply respects_print.
Qed.

Lemma respects_screenshot pg path :
  touch path -> respects R (screenshot E pg path).
Proof.
  intros Ht. unfold screenshot.
  apply respects_bind; [apply respects_act|]. intros _.
  apply respects_bind; [apply respects_open_wb, Ht|]. intros _.
  apply respects_write, Ht.
Qed.

Lemma respects_recorrer hrefs acc :
  (forall u, touch (pdf_path DATA_DIR u)) -> respects R (recorrer E hrefs acc).
Proof.
  intros Ht. revert acc. induction hrefs as [|href rest IH]; intros acc; simpl.
  - apply respects_ret.
  - destruct (href_truthy href) as [h|]; [|apply IH].
    apply respects_bind; [apply respects_descargar_pdf, Ht | intros _; apply IH].
Qed.

Lemma respects_cerrar pg :
  touch "example.png" ->
  respects R (screenshot E pg "example.png" ;;;
              print ("Página cargada: " +:+ page_title pg) ;;; act Close)%prog.
Proof.
  intros Ht.
  apply respects_bind; [apply respects_screenshot, Ht|]. intros _.
  apply respects_bind; [apply respects_print|]. intros _.
  apply respects_act.
Qed.

Lemma respects_registrar_y_cerrar pg links :
  touch CSV_FILE -> touch "example.png" ->
  respects R (registrar_y_cerrar E pg links).
Proof.
  intros Hc Hs. unfold registrar_y_cerrar.
  apply respects_bind; [apply respects_guardar_en_csv, Hc|]. intros _.
  apply respects_cerrar, Hs.
Qed.

Lemma respects_wait_for_selector sel timeout :
  respects R (wait_for_selector E sel timeout).
Proof.
  unfold wait_for_selector. apply respects_bind; [apply respects_act|].
  intros _ w. destruct (browse E (browser w)); apply R_refl.
Qed.

Lemma respects_buscar_y_descargar term :
  (forall u, touch (pdf_path DATA_DIR u)) ->
  respects R (buscar_y_descargar E term).
Proof.
  intros Ht. unfold buscar_y_descargar.
  apply respects_bind; [apply respects_act|]. intros _.
  apply respects_bind; [apply respects_act|]. intros _.
  apply respects_bind; [apply respects_print|]. intros _.
  apply respects_bind; [apply respects_act|]. intros _.
  apply respects_bind; [apply respects_act|]. intros _.
  apply respects_bind; [apply respects_act|]. intros _.
  apply respects_bind; [apply respects_wait_for_selector|]. intros pg.
  apply respects_bind; [apply respects_print|]. intros _.
  apply respects_bind; [apply respects_recorrer, Ht|]. intros links.
  apply respects_ret.
Qed.

End Respect.

Section Frames.

Lemma same_files_refl P w : same_files P w w.
Proof. intros p _. reflexivity. Qed.

Lemma same_files_trans P w1 w2 w3 :
  same_files P w1 w2 -> same_files P w2 w3 -> same_files P w1 w3.
Proof. intros H12 H23 p Hp. rewrite (H23 p Hp). apply H12, Hp. Qed.

Lemma same_files_console P w out reqs :
  same_files P w (mkWorld (files w) out reqs (browser w)).
Proof. intros p _. reflexivity. Qed.

Lemma same_files_act P w a :
  same_files P w (mkWorld (files w) (stdout w) (requests w) (browser w ++ [a])).
Proof. intros p _. reflexivity. Qed.

Lemma same_files_file (P touch : string -> Prop) :
  (forall q, touch q -> ~ P q) ->
  forall w path c, touch path ->
  same_files P w (set_files (<[path := c]> (files w)) w).
Proof.
  intros Hn w path c Ht p Hp. simpl. apply lookup_insert_ne.
  intros ->. exact (Hn _ Ht Hp).
Qed.

Lemma browser_grows_refl w : browser_grows w w.
Proof. unfold browser_grows. reflexivity. Qed.

Lemma browser_grows_trans w1 w2 w3 :
  browser_grows w1 w2 -> browser_grows w2 w3 -> browser_grows w1 w3.
Proof. unfold browser_grows. intros H12 H23. etrans; eassumption. Qed.

Lemma browser_grows_console w out reqs :
  browser_grows w (mkWorld (files w) out reqs (browser w)).
Proof. unfold browser_grows. reflexivity. Qed.

Lemma browser_grows_act w a :
  browser_grows w (mkWorld (files w) (stdout w) (requests w) (browser w ++ [a])).
Proof. unfold browser_grows. simpl. apply prefix_app_r. reflexivity. Qed.

Lemma browser_grows_file w path c :
  True -> browser_grows w (set_files (<[path := c]> (files w)) w).
Proof. unfold browser_grows. reflexivity. Qed.

End Frames.

(** Side conditions of the [respects] lemmas, for the two relations. *)
Ltac frame_side :=
  first
    [ exact (same_files_refl _)
    | exact (same_files_trans _)
    | exact (same_files_console _)
    | exact (same_files_act _)
    | solve [apply same_files_file; intros; subst; auto; congruence]
    | exact browser_grows_refl
    | exact browser_grows_trans
    | exact browser_grows_console
    | exact browser_grows_act
    | exact browser_grows_file ].

Section ProgramFrames.

Variable E : env.

(** A download touches no file but its own output file. *)
Lemma descargar_pdf_frame u d :
  respects (same_files (fun p => p <> pdf_path d u)) (descargar_pdf E u d).
Proof.
  apply respects_descargar_pdf with (touch := fun q => q = pdf_path d u);
    try frame_side.
  reflexivity.
Qed.

(** Recording touches no file but the list file. *)
Lemma guardar_en_csv_frame links path :
  respects (same_files (fun p => p <> path)) (guardar_en_csv E links path).
Proof.
  apply respects_guardar_en_csv with (touch := fun q => q = path);
    try frame_side.
  reflexivity.
Qed.

(** The download loop touches files under [data/] only. *)
Lemma recorrer_frame hrefs acc :
  respects (same_files (fun p => under_data p = false)) (recorrer E hrefs acc).
Proof.
  apply respects_recorrer with (touch := fun q => under_data q = true);
    try frame_side.
  apply pdf_path_under_data.
Qed.

(** After the recording, only the screenshot file is written. *)
Lemma cerrar_frame pg :
  respects (same_files (fun p => p <> "example.png"))
    (screenshot E pg "example.png" ;;;
     print ("Página cargada: " +:+ page_title pg) ;;; act Close)%prog.
Proof.
  apply respects_cerrar with (touch := fun q => q = "example.png");
    try frame_side.
  reflexivity.
Qed.

(** Nothing in the loop or after it undoes a browser action. *)
Lemma recorrer_browser hrefs acc :
  respects browser_grows (recorrer E hrefs acc).
Proof.
  apply respects_recorrer with (touch := fun _ => True); try frame_side.
  auto.
Qed.

Lemma registrar_y_cerrar_browser pg links :
  respects browser_grows (registrar_y_cerrar E pg links).
Proof.
  apply respects_registrar_y_cerrar with (touch := fun _ => True);
    try frame_side; auto.
Qed.
Lemma buscar_y_descargar_frame term :
  respects (same_files (fun p => under_data p = false))
           (buscar_y_descargar E term).
Proof.
  apply respects_buscar_y_descargar with (touch := fun q => under_data q = true);
    try frame_side.
  apply pdf_path_under_data.
Qed.

End ProgramFrames.

(* ===================================================================== *)
(** ** What [descargar_pdf] does, case by case                            *)
(* ===================================================================== *)

Section Download.

Variable E : env.

Lemma write_chunks_ok path chunks w c :
  (forall fs data, write_error E fs path data = None) ->
  files w !! path = Some c ->
  write_chunks E path chunks w =
  (Val tt, set_files (<[path := c ++ concat chunks]> (files w)) w).
Proof.
  intros Hok. revert w c.
  induction chunks as [|chunk rest IH]; intros w c Hc; simpl.
  - rewrite app_nil_r, (insert_id _ _ _ Hc), set_files_same. reflexivity.
  - erewrite bind_val.
    2:{ unfold write. rewrite Hok, Hc. reflexivity. }
    erewrite IH by (simpl; apply lookup_insert_eq).
    simpl. unfold set_files. simpl. rewrite insert_insert_eq, app_assoc. reflexivity.
Qed.

Lemma bar_total_ok r :
  header_content_length r <> LengthMalformed ->
  exists n, forall w, bar_total r w = (Val n, w).
Proof.
  unfold bar_total. destruct (header_content_length r); intros H.
  - exists 0%Z. reflexivity.
  - exists n. reflexivity.
  - congruence.
Qed.

Lemma stream_to_ok path r w c :
  (forall fs data, write_error E fs path data = None) ->
  files w !! path = Some c ->
  stream_to E path r w =
  (match body_error r with
   | Some msg => Exc (RequestException msg)
   | None => Val tt
   end,
   set_files (<[path := c ++ body_received r]> (files w)) w).
Proof.
  intros Hok Hc. unfold stream_to.
  erewrite bind_val by (apply write_chunks_ok; eassumption).
  rewrite iter_content_concat by lia.
  destruct (body_error r); reflexivity.
Qed.

Lemma descargar_pdf_200 u d w r :
  http_get E (length (requests w)) (pdf_request (pdf_url u)) = GetReturns r ->
  status_code r = 200%Z ->
  header_content_length r <> LengthMalformed ->
  writable E (pdf_path d u) ->
  descargar_pdf E u d w =
  (match body_error r with
   | None => Val (Some (pdf_path d u))
   | Some _ => Val None
   end,
   mkWorld (<[pdf_path d u := body_received r]> (files w))
           (stdout w ++
            [match body_error r with
             | None => "Archivo descargado: " +:+ pdf_path d u
             | Some msg => "Error en la descarga de " +:+ pdf_url u +:+ ": " +:+ msg
             end])
           (requests w ++ [pdf_request (pdf_url u)])
           (browser w)).
Proof.
  intros Hget Hst Hlen [Hopen Hwrite].
  destruct (bar_total_ok r Hlen) as [n Hn].
  unfold descargar_pdf. fold (pdf_url u). fold (pdf_path d u).
  destruct (body_error r) as [msg|] eqn:Hbody.
  - erewrite try_caught; cycle 1.
    { erewrite bind_val by (unfold requests_get; rewrite Hget; reflexivity).
      rewrite Hst. change (200 =? 200)%Z with true. cbv iota.
      erewrite bind_val by (unfold open_wb; rewrite Hopen; reflexivity).
      erewrite bind_val by apply Hn.
      erewrite bind_exc; [reflexivity|].
      erewrite stream_to_ok; [rewrite Hbody; reflexivity | exact Hwrite |].
      apply lookup_insert_eq. }
    { reflexivity. }
    unfold bind, print, ret, set_files. simpl.
    rewrite insert_insert_eq. reflexivity.
  - erewrite try_val; [reflexivity|].
    erewrite bind_val by (unfold requests_get; rewrite Hget; reflexivity).
    rewrite Hst. change (200 =? 200)%Z with true. cbv iota.
    erewrite bind_val by (unfold open_wb; rewrite Hopen; reflexivity).
    erewrite bind_val by apply Hn.
    erewrite bind_val.
    2:{ erewrite stream_to_ok; [rewrite Hbody; reflexivity | exact Hwrite |].
        apply lookup_insert_eq. }
    unfold bind, print, ret, set_files. simpl.
    rewrite insert_insert_eq. reflexivity.
Qed.
(** The request raises: logged, None, no file touched. *)
Lemma descargar_pdf_get_raises u d w msg :
  http_get E (length (requests w)) (pdf_request (pdf_url u)) = GetRaises msg ->
  descargar_pdf E u d w =
  (Val None,
   mkWorld (files w)
           (stdout w ++ ["Error en la descarga de " +:+ pdf_url u +:+ ": " +:+ msg])
           (requests w ++ [pdf_request (pdf_url u)])
           (browser w)).
Proof.
  intros Hget. unfold descargar_pdf. fold (pdf_url u).
  erewrite try_caught; cycle 1.
  { erewrite bind_exc; [reflexivity|].
    unfold requests_get. rewrite Hget. reflexivity. }
  { reflexivity. }
  reflexivity.
Qed.

(** A status other than 200: logged, None, no file touched. *)
Lemma descargar_pdf_not_200 u d w r :
  http_get E (length (requests w)) (pdf_request (pdf_url u)) = GetReturns r ->
  status_code r <> 200%Z ->
  descargar_pdf E u d w =
  (Val None,
   mkWorld (files w)
           (stdout w ++ ["Error al descargar " +:+ pdf_url u +:+ ": Código "
                           +:+ pretty (status_code r)])
           (requests w ++ [pdf_request (pdf_url u)])
           (browser w)).
Proof.
  intros Hget Hst. unfold descargar_pdf. fold (pdf_url u).
  erewrite try_val; [reflexivity|].
  erewrite bind_val by (unfold requests_get; rewrite Hget; reflexivity).
  apply Z.eqb_neq in Hst. rewrite Hst. reflexivity.
Qed.

End Download.

(* ===================================================================== *)
(** ** What [guardar_en_csv] and the download loop do                     *)
(* ===================================================================== *)

Section Recording.

Variable E : env.

Lemma write_rows_ok path links w c :
  (forall fs data, write_error E fs path data = None) ->
  files w !! path = Some c ->
  write_rows E path links w =
  (Val tt, set_files (<[path := c ++ encode (Csv.rows links)]> (files w)) w).
Proof.
  intros Hok. revert w c.
  induction links as [|link rest IH]; intros w c Hc.
  - simpl. rewrite app_nil_r, (insert_id _ _ _ Hc), set_files_same. reflexivity.
  - change (write_rows E path (link :: rest))
      with (bind (write E path (encode (Csv.row link)))
                 (fun _ => write_rows E path rest)).
    erewrite bind_val by (unfold write; rewrite Hok, Hc; reflexivity).
    erewrite IH by (simpl; apply lookup_insert_eq).
    change (Csv.rows (link :: rest)) with (Csv.row link +:+ Csv.rows rest).
    rewrite encode_app. unfold set_files. simpl.
    rewrite insert_insert_eq, app_assoc. reflexivity.
Qed.

(** On a writable list file the rows go after what the file holds. *)
Lemma guardar_en_csv_ok links path w :
  writable E path ->
  guardar_en_csv E links path w =
  (Val tt,
   mkWorld (<[path := default [] (files w !! path) ++ encode (Csv.rows links)]> (files w))
           (stdout w ++ [pretty (length links) +:+ " enlaces guardados en " +:+ path])
           (requests w) (browser w)).
Proof.
  intros [Hopen Hwrite]. unfold guardar_en_csv, guardar_en_csv_body.
  erewrite try_val; [reflexivity|].
  erewrite bind_val by (unfold open_a; rewrite Hopen; reflexivity).
  erewrite bind_val
    by (apply write_rows_ok; [exact Hwrite | simpl; apply lookup_insert_eq]).
  unfold print, set_files. simpl. rewrite insert_insert_eq. reflexivity.
Qed.

(** Whatever the body does, [guardar_en_csv] returns: an exception of the
    body is printed and swallowed. *)
Lemma guardar_en_csv_catches links path w :
  guardar_en_csv E links path w =
  match guardar_en_csv_body E links path w with
  | (Val _, w1) => (Val tt, w1)
  | (Exc e, w1) =>
      (Val tt, mkWorld (files w1)
                       (stdout w1 ++ ["Error al escribir en CSV: " +:+ exn_str e])
                       (requests w1) (browser w1))
  end.
Proof.
  unfold guardar_en_csv, try_except.
  destruct (guardar_en_csv_body E links path w) as [[[]|e] w1]; reflexivity.
Qed.

(** One step of the loop on a truthy href: the link is appended whatever
    value [descargar_pdf] returns; only an exception stops the loop. *)
Lemma recorrer_step h rest acc w :
  PyStr.truthy h = true ->
  recorrer E (Some h :: rest) acc w =
  match descargar_pdf E h DATA_DIR w with
  | (Val _, w1) => recorrer E rest (acc ++ [h]) w1
  | (Exc e, w1) => (Exc e, w1)
  end.
Proof. intros Hh. simpl. rewrite Hh. reflexivity. Qed.

Lemma recorrer_skip href rest acc w :
  href_truthy href = None ->
  recorrer E (href :: rest) acc w = recorrer E rest acc w.
Proof. intros Hh. simpl. rewrite Hh. reflexivity. Qed.

(** When the loop returns, [pdf_links] holds the truthy hrefs, in order. *)
Lemma recorrer_links hrefs acc w links w1 :
  recorrer E hrefs acc w = (Val links, w1) ->
  links = acc ++ omap href_truthy hrefs.
Proof.
  revert acc w. induction hrefs as [|href rest IH]; intros acc w; simpl.
  - unfold ret. intros [= <- _]. rewrite app_nil_r. reflexivity.
  - destruct (href_truthy href) as [h|]; [|apply IH].
    unfold bind. destruct (descargar_pdf E h DATA_DIR w) as [[v|e] w2].
    + intros H. apply IH in H. rewrite <- app_assoc in H. exact H.
    + discriminate.
Qed.

End Recording.

(* ===================================================================== *)
(** ** The run: search, loop, recording                                   *)
(* ===================================================================== *)

Section Run.

Variable E : env.

Lemma buscar_y_descargar_eq term w :
  buscar_y_descargar E term w =
  match browse E (browser w ++ search_actions term) with
  | WaitTimesOut msg => (Exc (TimeoutError msg), searching term w)
  | WaitRenders pg =>
      match recorrer E (page_hrefs pg) []
              (mkWorld (files w)
                 (stdout (searching term w) ++
                  ["Se encontraron " +:+ pretty (length (page_hrefs pg))
                     +:+ " PDFs para descargar."])
                 (requests w)
                 (browser w ++ search_actions term)) with
      | (Val links, w1) => (Val (pg, links), w1)
      | (Exc e, w1) => (Exc e, w1)
      end
  end.
Proof.
  unfold buscar_y_descargar, wait_for_selector, bind, act, print, searching.
  cbn [files stdout requests browser].
  rewrite <- !app_assoc. cbn [app].
  fold (search_actions term).
  destruct (browse E (browser w ++ search_actions term)) as [msg|pg];
    [reflexivity|].
  destruct (recorrer E _ _ _) as [[links|e] w1]; reflexivity.
Qed.

(** The list file after the recording step of a run, on a writable list
    file: the rows of [links] after what the file held. *)
Lemma registrar_y_cerrar_csv pg links w :
  writable E CSV_FILE ->
  files (snd (registrar_y_cerrar E pg links w)) !! CSV_FILE =
  Some (default [] (files w !! CSV_FILE) ++ encode (Csv.rows links)).
Proof.
  intros Hw. unfold registrar_y_cerrar.
  erewrite bind_val by (apply guardar_en_csv_ok, Hw).
  rewrite (cerrar_frame E pg _ CSV_FILE) by discriminate.
  cbn [files]. apply lookup_insert_eq.
Qed.

Lemma scrape_arxiv_after_loop term w pg links w1 :
  buscar_y_descargar E term w = (Val (pg, links), w1) ->
  scrape_arxiv E term w = registrar_y_cerrar E pg links w1.
Proof. intros H. unfold scrape_arxiv. rewrite (bind_val _ _ _ _ _ H). reflexivity. Qed.

Lemma scrape_arxiv_csv term w pg links w1 :
  buscar_y_descargar E term w = (Val (pg, links), w1) ->
  writable E CSV_FILE ->
  browse E (browser w ++ search_actions term) = WaitRenders pg /\
  links = omap href_truthy (page_hrefs pg) /\
  files (snd (scrape_arxiv E term w)) !! CSV_FILE =
  Some (default [] (files w !! CSV_FILE) ++ encode (Csv.rows links)).
Proof.
  intros Hrun Hw.
  pose proof (buscar_y_descargar_frame E term w CSV_FILE eq_refl) as Hold.
  rewrite (scrape_arxiv_after_loop _ _ _ _ _ Hrun), registrar_y_cerrar_csv by exact Hw.
  rewrite Hrun in Hold. cbn [snd] in Hold. rewrite Hold.
  rewrite buscar_y_descargar_eq in Hrun.
  destruct (browse E _) as [msg|pg']; [discriminate|].
  destruct (recorrer E _ _ _) as [[links'|e] w2] eqn:Hloop; [|discriminate].
  injection Hrun as -> -> ->.
  apply recorrer_links in Hloop. auto.
Qed.

(** Whatever the term, the run performs the search actions with it. *)
Lemma scrape_arxiv_searches term w :
  browser_grows (searching term w) (snd (scrape_arxiv E term w)).
Proof.
  unfold scrape_arxiv, bind. rewrite buscar_y_descargar_eq.
  destruct (browse E _) as [msg|pg]; [apply browser_grows_refl|].
  match goal with |- context [recorrer E ?h ?a ?w0] =>
    pose proof (recorrer_browser E h a w0) as Hloop;
    destruct (recorrer E h a w0) as [[links|e] w1] end;
    cbn [snd fst] in *; [|exact Hloop].
  eapply browser_grows_trans; [exact Hloop|].
  apply registrar_y_cerrar_browser.
Qed.

End Run.

(* ===================================================================== *)
(** ** The rows determine the links                                       *)
(* ===================================================================== *)

Section CsvFacts.

Lemma string_app_assoc (a b c : string) : (a +:+ b) +:+ c = a +:+ (b +:+ c).
Proof.
  induction a as [|x a IH]; [reflexivity|].
  change (String x ((a +:+ b) +:+ c) = String x (a +:+ (b +:+ c))).
  f_equal. exact IH.
Qed.

Lemma rows_app l1 l2 : Csv.rows (l1 ++ l2) = Csv.rows l1 +:+ Csv.rows l2.
Proof.
  induction l1 as [|l l1 IH]; [reflexivity|].
  change (Csv.row l +:+ Csv.rows (l1 ++ l2)
          = (Csv.row l +:+ Csv.rows l1) +:+ Csv.rows l2).
  rewrite IH, string_app_assoc. reflexivity.
Qed.

Lemma encode_inj s t : encode s = encode t -> s = t.
Proof.
  unfold encode, list_byte_of_string. revert t.
  induction s as [|c s IH]; intros [|c' t]; simpl; try discriminate; [reflexivity|].
  intros [= Hc Ht]. f_equal; [|apply IH, Ht].
  rewrite <- (ascii_of_byte_of_ascii c), <- (ascii_of_byte_of_ascii c'), Hc.
  reflexivity.
Qed.

(** An unquoted field ends at the first carriage return. *)
Lemma bare_inj a b x y :
  Csv.has_special a = false -> Csv.has_special b = false ->
  a +:+ String Csv.cr x = b +:+ String Csv.cr y -> a = b /\ x = y.
Proof.
  revert b. induction a as [|c a IH]; intros [|c' b]; simpl.
  - intros _ _ [= ->]. auto.
  - intros _ Hb H. inversion H; subst. discriminate.
  - intros Ha _ H. inversion H; subst. discriminate.
  - intros Ha Hb H. inversion H as [[Hcc H']].
    apply orb_false_elim in Ha as [_ Ha]. apply orb_false_elim in Hb as [_ Hb].
    destruct (IH b Ha Hb H') as [-> ->]. auto.
Qed.

(** A quoted field ends at the first quote that is not doubled. *)
Lemma quoted_inj a b x y :
  Csv.escape a +:+ String Csv.dquote (String Csv.cr x) =
  Csv.escape b +:+ String Csv.dquote (String Csv.cr y) ->
  a = b /\ x = y.
Proof.
  revert b. induction a as [|c a IH]; intros [|c' b]; simpl.
  - intros [= ->]. auto.
  - destruct (Ascii.eqb c' Csv.dquote) eqn:Hc'; simpl; intros H.
    + inversion H.
    + inversion H; subst. rewrite Ascii.eqb_refl in Hc'. discriminate.
  - destruct (Ascii.eqb c Csv.dquote) eqn:Hc; simpl; intros H.
    + inversion H.
    + inversion H; subst. rewrite Ascii.eqb_refl in Hc. discriminate.
  - destruct (Ascii.eqb c Csv.dquote) eqn:Hc;
      destruct (Ascii.eqb c' Csv.dquote) eqn:Hc'; simpl; intros H.
    + apply Ascii.eqb_eq in Hc, Hc'. subst c c'.
      inversion H as [H']. destruct (IH b H') as [-> ->]. auto.
    + inversion H; subst. rewrite Ascii.eqb_refl in Hc'. discriminate.
    + inversion H; subst. rewrite Ascii.eqb_refl in Hc. discriminate.
    + inversion H as [[Hcc H']]. destruct (IH b H') as [-> ->]. auto.
Qed.

Lemma quoted_row_eq a x :
  Csv.row a +:+ x =
  (if Csv.has_special a || negb (PyStr.truthy a)
   then String Csv.dquote
          (Csv.escape a +:+ String Csv.dquote (String Csv.cr (String Csv.lf x)))
   else a +:+ String Csv.cr (String Csv.lf x)).
Proof.
  unfold Csv.row, Csv.field, Csv.lineterminator.
  destruct (Csv.has_special a || negb (PyStr.truthy a)).
  - change (String Csv.dquote
              (((Csv.escape a +:+ String Csv.dquote EmptyString)
                +:+ String Csv.cr (String Csv.lf EmptyString)) +:+ x) =
            String Csv.dquote
              (Csv.escape a +:+ String Csv.dquote (String Csv.cr (String Csv.lf x)))).
    rewrite !string_app_assoc. reflexivity.
  - rewrite string_app_assoc. reflexivity.
Qed.

(** A row followed by anything determines its link and what follows. *)
Lemma row_inj a b x y :
  Csv.row a +:+ x = Csv.row b +:+ y -> a = b /\ x = y.
Proof.
  rewrite !quoted_row_eq.
  destruct (Csv.has_special a || negb (PyStr.truthy a)) eqn:Ha;
    destruct (Csv.has_special b || negb (PyStr.truthy b)) eqn:Hb.
  - intros [= H].
    destruct (quoted_inj a b (String Csv.lf x) (String Csv.lf y) H) as [-> [= ->]].
    auto.
  - apply orb_false_elim in Hb as [Hb Hb'].
    destruct b as [|c b]; [discriminate|].
    intros H. inversion H; subst. discriminate.
  - apply orb_false_elim in Ha as [Ha Ha'].
    destruct a as [|c a]; [discriminate|].
    intros H. inversion H; subst. discriminate.
  - apply orb_false_elim in Ha as [Ha _]. apply orb_false_elim in Hb as [Hb _].
    intros H.
    destruct (bare_inj a b (String Csv.lf x) (String Csv.lf y) Ha Hb H)
      as [-> [= ->]].
    auto.
Qed.

Lemma row_not_empty a x : Csv.row a +:+ x <> EmptyString.
Proof.
  rewrite quoted_row_eq.
  destruct (Csv.has_special a || negb (PyStr.truthy a)); [discriminate|].
  destruct a; discriminate.
Qed.

Lemma rows_inj l1 l2 : Csv.rows l1 = Csv.rows l2 -> l1 = l2.
Proof.
  revert l2. induction l1 as [|a l1 IH]; intros [|b l2]; simpl.
  - reflexivity.
  - intros H. symmetry in H. destruct (row_not_empty _ _ H).
  - intros H. destruct (row_not_empty _ _ H).
  - intros H. destruct (row_inj _ _ _ _ H) as [-> H']. f_equal. apply IH, H'.
Qed.

(** A link without comma, quote or line break is written as it is,
    followed by CR LF. *)
Lemma rows_plain links :
  Forall (fun l => Csv.has_special l = false) links ->
  Forall (fun l => PyStr.truthy l = true) links ->
  encode (Csv.rows links) = concat (map (fun l => encode l ++ [x0d; x0a]) links).
Proof.
  induction links as [|l links IH]; intros Hs Ht; [reflexivity|].
  apply Forall_cons in Hs as [Hl Hs]. apply Forall_cons in Ht as [Hl' Ht].
  change (Csv.rows (l :: links)) with (Csv.row l +:+ Csv.rows links).
  rewrite encode_app, (IH Hs Ht). unfold Csv.row, Csv.field.
  rewrite Hl, Hl', encode_app. reflexivity.
Qed.

(** The links the loop collects are never empty. *)
Lemma href_truthy_nonempty hrefs :
  Forall (fun l => PyStr.truthy l = true) (omap href_truthy hrefs).
Proof.
  induction hrefs as [|[h|] hrefs IH]; simpl.
  - constructor.
  - destruct (PyStr.truthy h) eqn:Hh; simpl; [constructor; assumption | exact IH].
  - exact IH.
Qed.

(** What [content ++ rows] tells about the rows: the links, all of them. *)
Lemma rows_determined (old : list byte) links links' :
  old ++ encode (Csv.rows links') = old ++ encode (Csv.rows links) ->
  links' = links.
Proof. intros H. apply app_inv_head in H. apply rows_inj, encode_inj, H. Qed.

End CsvFacts.

(* ===================================================================== *)
(** ** The properties of the specification                                *)
(* ===================================================================== *)

(** C1: for every link URL [u], [descargar_pdf] takes as identifier the
    final path segment of [u] (what follows its last '/'; for
    https://arxiv.org/pdf/2301.04567 it is 2301.04567), requests
    https://arxiv.org/pdf/<identifier>.pdf, and on a 200 response whose body
    arrives writes the body to <identifier>.pdf under the output directory
    and returns that path. *)
Theorem descargar_pdf_downloads (E : env) (u d : string) (w : world) (r : response) :
  http_get E (length (requests w)) (pdf_request (pdf_url u)) = GetReturns r ->
  status_code r = 200%Z ->
  header_content_length r <> LengthMalformed ->
  body_error r = None ->
  writable E (pdf_path d u) ->
  PyStr.contains slash (file_id u) = false /\
  (u = file_id u \/ exists p, u = p +:+ String slash (file_id u)) /\
  file_id "https://arxiv.org/pdf/2301.04567" = "2301.04567" /\
  pdf_url "https://arxiv.org/pdf/2301.04567" = "https://arxiv.org/pdf/2301.04567.pdf" /\
  pdf_url u = "https://arxiv.org/pdf/" +:+ file_id u +:+ ".pdf" /\
  pdf_path d u =
    d +:+ (if negb (PyStr.truthy d) || PyStr.endswith d slash then EmptyString else "/")
      +:+ file_id u +:+ ".pdf" /\
  descargar_pdf E u d w =
    (Val (Some (pdf_path d u)),
     mkWorld (<[pdf_path d u := body_received r]> (files w))
             (stdout w ++ ["Archivo descargado: " +:+ pdf_path d u])
             (requests w ++ [mkRequest (pdf_url u) true 10 user_agent])
             (browser w)).
Proof.
  intros Hget Hst Hlen Hbody Hw.
  split; [apply file_id_has_no_slash|].
  split; [apply file_id_suffix|].
  split; [reflexivity|].
  split; [reflexivity|].
  split; [reflexivity|].
  split; [apply pdf_path_eq|].
  rewrite (descargar_pdf_200 E u d w r Hget Hst Hlen Hw), Hbody.
  reflexivity.
Qed.

(** An instance of C1: the first link of the demo page, answered 200. *)
Lemma descargar_pdf_downloads_witness :
  descargar_pdf Demo.E_ok Demo.link1 DATA_DIR Demo.w0 =
  (Val (Some "data/2301.04567.pdf"),
   mkWorld (<["data/2301.04567.pdf" := Demo.body1]> (files Demo.w0))
           ["Archivo descargado: data/2301.04567.pdf"]
           [mkRequest "https://arxiv.org/pdf/2301.04567.pdf" true 10 user_agent]
           []).
Proof.
  apply (descargar_pdf_downloads Demo.E_ok Demo.link1 DATA_DIR Demo.w0
           (mkResponse 200 (LengthInt 14) Demo.body1 None)).
  - reflexivity.
  - reflexivity.
  - discriminate.
  - reflexivity.
  - split; reflexivity.
Defined.

(** C2: after a run that reaches the recording step (on a writable list
    file), the list file holds what it held before followed by one row per
    enumerated href, in page order: for links without comma, quote or line
    break, the link itself followed by CR LF, and in every case rows from
    which the sequence of links can be read back.  An element without href
    is skipped without any effect; a second run with the same page appends
    the same rows again. *)
Theorem list_file_appended (E : env) (term : string) (w : world)
    (pg : page) (links : list string) (w1 : world) :
  buscar_y_descargar E term w = (Val (pg, links), w1) ->
  writable E CSV_FILE ->
  browse E (browser w ++ search_actions term) = WaitRenders pg /\
  links = omap href_truthy (page_hrefs pg) /\
  (forall rest acc w0, recorrer E (None :: rest) acc w0 = recorrer E rest acc w0) /\
  files (snd (scrape_arxiv E term w)) !! CSV_FILE =
    Some (default [] (files w !! CSV_FILE) ++ encode (Csv.rows links)) /\
  (Forall (fun l => Csv.has_special l = false) links ->
   files (snd (scrape_arxiv E term w)) !! CSV_FILE =
     Some (default [] (files w !! CSV_FILE)
             ++ concat (map (fun l => encode l ++ [x0d; x0a]) links))) /\
  (forall links',
     files (snd (scrape_arxiv E term w)) !! CSV_FILE =
       Some (default [] (files w !! CSV_FILE) ++ encode (Csv.rows links')) ->
     links' = links) /\
  (forall pg2 links2 w2,
     buscar_y_descargar E term (snd (scrape_arxiv E term w)) = (Val (pg2, links2), w2) ->
     page_hrefs pg2 = page_hrefs pg ->
     files (snd (scrape_arxiv E term (snd (scrape_arxiv E term w)))) !! CSV_FILE =
       Some (default [] (files w !! CSV_FILE)
               ++ encode (Csv.rows links) ++ encode (Csv.rows links)) /\
     (Forall (fun l => Csv.has_special l = false) links ->
      files (snd (scrape_arxiv E term (snd (scrape_arxiv E term w)))) !! CSV_FILE =
        Some (default [] (files w !! CSV_FILE)
                ++ concat (map (fun l => encode l ++ [x0d; x0a]) links)
                ++ concat (map (fun l => encode l ++ [x0d; x0a]) links)))).
Proof.
  intros Hrun Hw.
  destruct (scrape_arxiv_csv E term w pg links w1 Hrun Hw) as (Hpg & Hlinks & Hcsv).
  assert (Hne : Forall (fun l => PyStr.truthy l = true) links)
    by (rewrite Hlinks; apply href_truthy_nonempty).
  split; [exact Hpg|]. split; [exact Hlinks|].
  split; [intros rest acc w0; reflexivity|].
  split; [exact Hcsv|].
  split; [intros Hplain; rewrite Hcsv, (rows_plain links Hplain Hne); reflexivity|].
  split.
  - intros links' H. rewrite Hcsv in H. injection H as H.
    symmetry in H. apply (rows_determined _ _ _ H).
  - intros pg2 links2 w2 Hrun2 Hsame.
    destruct (scrape_arxiv_csv E term _ pg2 links2 w2 Hrun2 Hw) as (_ & Hlinks2 & Hcsv2).
    rewrite Hcsv2, Hcsv, Hlinks2, Hsame, <- Hlinks.
    change (default [] (Some ?c)) with c.
    rewrite <- app_assoc. split; [reflexivity|].
    intros Hplain. rewrite (rows_plain links Hplain Hne). reflexivity.
Qed.

(** An instance of C2: a run over the demo page, the list file holding one
    earlier row; afterwards it holds four lines. *)
Lemma list_file_appended_witness :
  files (snd (scrape_arxiv Demo.E_ok "learning" Demo.w0)) !! CSV_FILE =
  Some (encode "https://arxiv.org/pdf/1706.03762" ++ [x0d; x0a]
        ++ encode "https://arxiv.org/pdf/2301.04567" ++ [x0d; x0a]
        ++ encode "https://arxiv.org/abs/2301.04567" ++ [x0d; x0a]
        ++ encode "https://arxiv.org/pdf/2302.00001" ++ [x0d; x0a]).
Proof.
  destruct (list_file_appended Demo.E_ok "learning" Demo.w0 Demo.results
              [Demo.link1; Demo.link2; Demo.link3]
              (snd (buscar_y_descargar Demo.E_ok "learning" Demo.w0)))
    as (_ & _ & _ & _ & Hplain & _).
  - vm_compute. reflexivity.
  - split; reflexivity.
  - rewrite Hplain by (repeat constructor). reflexivity.
Defined.

(** C3: when the download request is answered with a status other than
    200, [descargar_pdf] creates no file, prints the condition, returns None
    without raising, and the loop goes on with the next link. *)
Theorem descargar_pdf_non_200 (E : env) (u d : string) (w : world) (r : response) :
  http_get E (length (requests w)) (pdf_request (pdf_url u)) = GetReturns r ->
  status_code r <> 200%Z ->
  descargar_pdf E u d w =
    (Val None,
     mkWorld (files w)
             (stdout w ++ ["Error al descargar " +:+ pdf_url u +:+ ": Código "
                             +:+ pretty (status_code r)])
             (requests w ++ [pdf_request (pdf_url u)])
             (browser w)) /\
  (forall rest acc,
     PyStr.truthy u = true ->
     recorrer E (Some u :: rest) acc w =
     recorrer E rest (acc ++ [u])
       (mkWorld (files w)
                (stdout w ++ ["Error al descargar " +:+ pdf_url u +:+ ": Código "
                                +:+ pretty (status_code r)])
                (requests w ++ [pdf_request (pdf_url u)])
                (browser w))).
Proof.
  intros Hget Hst. split.
  - apply descargar_pdf_not_200; assumption.
  - intros rest acc Hu.
    rewrite (recorrer_step E u rest acc w Hu).
    rewrite (descargar_pdf_not_200 E u DATA_DIR w r Hget Hst). reflexivity.
Qed.

(** An instance of C3: a download answered 404. *)
Lemma descargar_pdf_non_200_witness :
  descargar_pdf Demo.E_404 Demo.link1 DATA_DIR Demo.w0 =
  (Val None,
   mkWorld (files Demo.w0)
           ["Error al descargar https://arxiv.org/pdf/2301.04567.pdf: Código 404"]
           [pdf_request "https://arxiv.org/pdf/2301.04567.pdf"]
           []).
Proof.
  refine (proj1 (descargar_pdf_non_200 Demo.E_404 Demo.link1 DATA_DIR Demo.w0
                   (mkResponse 404 LengthAbsent (encode "Not Found") None) _ _)).
  - reflexivity.
  - discriminate.
Defined.

(** C4: when the bounded wait for the result selector (5000 ms) times out,
    the run ends there with the timeout error: no request is issued and no
    file, the list file included, is changed. *)
Theorem scrape_arxiv_timeout (E : env) (term : string) (w : world) (msg : string) :
  browse E (browser w ++ search_actions term) = WaitTimesOut msg ->
  scrape_arxiv E term w = (Exc (TimeoutError msg), searching term w) /\
  files (searching term w) = files w /\
  requests (searching term w) = requests w /\
  last (browser (searching term w)) = Some (WaitForSelector selector 5000).
Proof.
  intros Hwait. split.
  - unfold scrape_arxiv. erewrite bind_exc; [reflexivity|].
    rewrite buscar_y_descargar_eq, Hwait. reflexivity.
  - split; [reflexivity|]. split; [reflexivity|].
    unfold searching, search_actions. cbn [browser].
    rewrite last_app. reflexivity.
Qed.

(** An instance of C4: the result links never render. *)
Lemma scrape_arxiv_timeout_witness :
  scrape_arxiv Demo.E_timeout "learning" Demo.w0 =
  (Exc (TimeoutError "Timeout 5000ms exceeded."), searching "learning" Demo.w0).
Proof.
  refine (proj1 (scrape_arxiv_timeout Demo.E_timeout "learning" Demo.w0
                   "Timeout 5000ms exceeded." _)).
  reflexivity.
Defined.

(** C5: when writing the list file fails, [guardar_en_csv] catches the
    exception, prints it and returns normally; no file other than the list
    file is touched, so the files downloaded to [data/] (never the list
    file's path) stay as they are. *)
Theorem guardar_en_csv_write_failure (E : env) (links : list string)
    (file_path : string) (w : world) (e : exn) (w1 : world) :
  guardar_en_csv_body E links file_path w = (Exc e, w1) ->
  guardar_en_csv E links file_path w =
    (Val tt,
     mkWorld (files w1)
             (stdout w1 ++ ["Error al escribir en CSV: " +:+ exn_str e])
             (requests w1) (browser w1)) /\
  (forall p, p <> file_path -> files w1 !! p = files w !! p) /\
  (forall u, pdf_path DATA_DIR u <> CSV_FILE).
Proof.
  intros Hbody. split; [|split].
  - rewrite guardar_en_csv_catches, Hbody. reflexivity.
  - intros p Hp.
    pose proof (guardar_en_csv_frame E links file_path w p Hp) as H.
    rewrite guardar_en_csv_catches, Hbody in H. exact H.
  - apply pdf_path_not_csv.
Qed.

(** An instance of C5: the list file cannot be opened. *)
Lemma guardar_en_csv_write_failure_witness :
  guardar_en_csv Demo.E_readonly [Demo.link1] CSV_FILE Demo.w0 =
  (Val tt,
   mkWorld (files Demo.w0)
           ["Error al escribir en CSV: [Errno 13] Permission denied"]
           [] []).
Proof.
  refine (proj1 (guardar_en_csv_write_failure Demo.E_readonly [Demo.link1]
                   CSV_FILE Demo.w0 (OSError "[Errno 13] Permission denied")
                   Demo.w0 _)).
  reflexivity.
Defined.

(** C6: when two links have the same identifier, the second download
    (same directory) requests the same URL and writes the same file.  Be it
    right after the first download or in any later world, of this run or of
    another one, in which the first file is still there: the second
    download replaces its content, touches no other file, prints nothing
    but success and raises nothing. *)
Theorem same_identifier_overwrites (E : env) (u1 u2 d : string) (w w' : world)
    (r1 r2 : response) :
  file_id u1 = file_id u2 ->
  http_get E (length (requests w)) (pdf_request (pdf_url u1)) = GetReturns r1 ->
  status_code r1 = 200%Z -> header_content_length r1 <> LengthMalformed ->
  body_error r1 = None ->
  files w' !! pdf_path d u1 = Some (body_received r1) ->
  http_get E (length (requests w')) (pdf_request (pdf_url u2)) = GetReturns r2 ->
  status_code r2 = 200%Z -> header_content_length r2 <> LengthMalformed ->
  body_error r2 = None ->
  writable E (pdf_path d u1) ->
  exists w1 w2,
    pdf_url u2 = pdf_url u1 /\ pdf_path d u2 = pdf_path d u1 /\
    descargar_pdf E u1 d w = (Val (Some (pdf_path d u1)), w1) /\
    files w1 !! pdf_path d u1 = Some (body_received r1) /\
    descargar_pdf E u2 d w' = (Val (Some (pdf_path d u1)), w2) /\
    files w2 = <[pdf_path d u1 := body_received r2]> (files w') /\
    files w2 !! pdf_path d u1 = Some (body_received r2) /\
    stdout w2 = stdout w' ++ ["Archivo descargado: " +:+ pdf_path d u1].
Proof.
  intros Hid Hget1 Hst1 Hlen1 Hb1 Hfile Hget2 Hst2 Hlen2 Hb2 Hw.
  assert (Hurl : pdf_url u2 = pdf_url u1) by (unfold pdf_url; congruence).
  assert (Hpath : pdf_path d u2 = pdf_path d u1) by (unfold pdf_path; congruence).
  pose proof (descargar_pdf_200 E u1 d w r1 Hget1 Hst1 Hlen1 Hw) as H1.
  rewrite Hb1 in H1.
  eexists _, _. split; [exact Hurl|]. split; [exact Hpath|].
  split; [exact H1|]. split; [apply lookup_insert_eq|].
  rewrite <- Hpath in Hw.
  pose proof (descargar_pdf_200 E u2 d w' r2 Hget2 Hst2 Hlen2 Hw) as H2.
  rewrite Hb2, Hpath in H2.
  split; [exact H2|]. cbn [files stdout].
  split; [reflexivity|]. split; [apply lookup_insert_eq | reflexivity].
Qed.

(** An instance of C6: the /pdf/ and /abs/ links of one paper, downloaded
    one after the other. *)
Lemma same_identifier_overwrites_witness :
  files (snd (descargar_pdf Demo.E_ok Demo.link1 DATA_DIR Demo.w0))
    !! "data/2301.04567.pdf" = Some Demo.body1 /\
  exists w2,
    descargar_pdf Demo.E_ok Demo.link2 DATA_DIR
      (snd (descargar_pdf Demo.E_ok Demo.link1 DATA_DIR Demo.w0))
      = (Val (Some "data/2301.04567.pdf"), w2) /\
    files w2 !! "data/2301.04567.pdf" = Some Demo.body2.
Proof.
  split; [vm_compute; reflexivity|].
  destruct (same_identifier_overwrites Demo.E_ok Demo.link1 Demo.link2 DATA_DIR
              Demo.w0 (snd (descargar_pdf Demo.E_ok Demo.link1 DATA_DIR Demo.w0))
              (mkResponse 200 (LengthInt 14) Demo.body1 None)
              (mkResponse 200 LengthAbsent Demo.body2 None))
    as (w1 & w2 & _ & _ & _ & _ & H2 & _ & Hf2 & _).
  - reflexivity.
  - reflexivity.
  - reflexivity.
  - discriminate.
  - reflexivity.
  - vm_compute. reflexivity.
  - reflexivity.
  - reflexivity.
  - discriminate.
  - reflexivity.
  - split; reflexivity.
  - exists w2. split; [exact H2 | exact Hf2].
Defined.

(** C7 (as the code has it): no validation is applied to the search term.
    Whatever the term, the empty string included, the run launches the
    browser, opens the search page, fills the term unchanged into the
    search box, clicks and waits for the result selector; everything the
    browser does later comes after these actions. *)
Theorem search_term_not_validated (E : env) (term : string) (w : world) :
  browser w ++ [Launch "firefox" false 2000; NewPage;
                Goto "https://arxiv.org/search/";
                Fill "Search term..." term; Click "button" 1;
                WaitForSelector selector 5000]
    `prefix_of` browser (snd (scrape_arxiv E term w)).
Proof. exact (scrape_arxiv_searches E term w). Qed.

(** C7, the claim as stated fails: with the empty search term the run is
    not refused; it fills the empty term in, downloads the three links the
    page shows, records them and ends normally. *)
Lemma empty_term_accepted :
  fst (scrape_arxiv Demo.E_ok EmptyString Demo.w0) = Val tt /\
  browser (snd (scrape_arxiv Demo.E_ok EmptyString Demo.w0)) =
    [Launch "firefox" false 2000; NewPage; Goto "https://arxiv.org/search/";
     Fill "Search term..." EmptyString; Click "button" 1;
     WaitForSelector selector 5000; Screenshot "example.png"; Close] /\
  map req_url (requests (snd (scrape_arxiv Demo.E_ok EmptyString Demo.w0))) =
    ["https://arxiv.org/pdf/2301.04567.pdf";
     "https://arxiv.org/pdf/2301.04567.pdf";
     "https://arxiv.org/pdf/2302.00001.pdf"] /\
  files (snd (scrape_arxiv Demo.E_ok EmptyString Demo.w0)) !! CSV_FILE =
    Some (encode (Csv.row "https://arxiv.org/pdf/1706.03762")
            ++ encode (Csv.rows [Demo.link1; Demo.link2; Demo.link3])).
Proof. vm_compute. repeat split; reflexivity. Qed.



(** C9: when the connection breaks while the body of a 200 response is
    streamed, [descargar_pdf] prints the error and returns None, yet the
    output file has been created and holds the bytes received so far. *)
Theorem broken_stream_leaves_file (E : env) (u d : string) (w : world)
    (r : response) (msg : string) :
  http_get E (length (requests w)) (pdf_request (pdf_url u)) = GetReturns r ->
  status_code r = 200%Z ->
  header_content_length r <> LengthMalformed ->
  body_error r = Some msg ->
  writable E (pdf_path d u) ->
  exists w',
    descargar_pdf E u d w = (Val None, w') /\
    files w' !! pdf_path d u = Some (body_received r) /\
    files w' = <[pdf_path d u := body_received r]> (files w) /\
    stdout w' = stdout w ++ ["Error en la descarga de " +:+ pdf_url u +:+ ": " +:+ msg].
Proof.
  intros Hget Hst Hlen Hbody Hw.
  pose proof (descargar_pdf_200 E u d w r Hget Hst Hlen Hw) as H.
  rewrite Hbody in H. eexists. split; [exact H|].
  cbn [files stdout]. split; [apply lookup_insert_eq|]. split; reflexivity.
Qed.

(** An instance of C9: the connection breaks after eight bytes. *)
Lemma broken_stream_leaves_file_witness :
  exists w',
    descargar_pdf Demo.E_broken Demo.link1 DATA_DIR Demo.w0 = (Val None, w') /\
    files Demo.w0 !! "data/2301.04567.pdf" = None /\
    files w' !! "data/2301.04567.pdf" = Some (encode "%PDF-1.5").
Proof.
  destruct (broken_stream_leaves_file Demo.E_broken Demo.link1 DATA_DIR Demo.w0
              (mkResponse 200 (LengthInt 14) (encode "%PDF-1.5")
                          (Some "Connection broken"))
              "Connection broken")
    as (w' & Hrun & Hfile & _).
  - reflexivity.
  - reflexivity.
  - discriminate.
  - reflexivity.
  - split; reflexivity.
  - exists w'. split; [exact Hrun|]. split; [reflexivity | exact Hfile].
Defined.

(** C10: the identifier is the raw text after the last '/' of the URL,
    nothing is sanitised: a URL that ends in '/' has the empty identifier
    (download URL https://arxiv.org/pdf/.pdf, file name .pdf), and a query
    string after the last segment stays in the identifier. *)
Theorem file_id_unsanitised (p s q : string) :
  PyStr.contains slash s = false ->
  PyStr.contains slash q = false ->
  file_id (p +:+ "/" +:+ s) = s /\
  file_id (p +:+ "/") = EmptyString /\
  pdf_url (p +:+ "/") = "https://arxiv.org/pdf/.pdf" /\
  pdf_name (file_id (p +:+ "/")) = ".pdf" /\
  file_id (p +:+ "/" +:+ s +:+ "?" +:+ q) = s +:+ "?" +:+ q.
Proof.
  intros Hs Hq.
  assert (Hend : file_id (p +:+ "/") = EmptyString)
    by (apply (file_id_after_last_slash p EmptyString); reflexivity).
  split; [apply (file_id_after_last_slash p s Hs)|].
  split; [exact Hend|].
  split; [unfold pdf_url; rewrite Hend; reflexivity|].
  split; [rewrite Hend; reflexivity|].
  apply (file_id_after_last_slash p (s +:+ "?" +:+ q)).
  rewrite !contains_app, Hs, Hq. reflexivity.
Qed.

(** An instance of C10. *)
Lemma file_id_unsanitised_witness :
  file_id "https://arxiv.org/pdf/" = EmptyString /\
  file_id "https://arxiv.org/pdf/2301.04567v2?download=1" = "2301.04567v2?download=1".
Proof.
  destruct (file_id_unsanitised "https://arxiv.org/pdf" "2301.04567v2" "download=1")
    as (_ & Hempty & _ & _ & Hquery).
  - reflexivity.
  - reflexivity.
  - split; [exact Hempty | exact Hquery].
Defined.

(* ===================================================================== *)
(** ** Further frame properties: browser, requests, append-only files     *)
(* ===================================================================== *)

Section MoreFrames.

Lemma same_browser_refl w : same_browser w w.
Proof. reflexivity. Qed.

Lemma same_browser_trans w1 w2 w3 :
  same_browser w1 w2 -> same_browser w2 w3 -> same_browser w1 w3.
Proof. unfold same_browser. congruence. Qed.

Lemma same_browser_console w out reqs :
  same_browser w (mkWorld (files w) out reqs (browser w)).
Proof. reflexivity. Qed.

Lemma same_browser_file w path c :
  True -> same_browser w (set_files (<[path := c]> (files w)) w).
Proof. reflexivity. Qed.

End MoreFrames.

Ltac same_browser_side :=
  first [ exact same_browser_refl | exact same_browser_trans
        | exact same_browser_console | exact same_browser_file
        | exact I | exact (fun _ => I) ].

Section MoreFrames2.

Variable E : env.

(** A download, the loop and the recording perform no browser action. *)
Lemma descargar_pdf_same_browser u d :
  respects same_browser (descargar_pdf E u d).
Proof.
  apply respects_descargar_pdf with (touch := fun _ => True);
    same_browser_side.
Qed.

Lemma recorrer_same_browser hrefs acc :
  respects same_browser (recorrer E hrefs acc).
Proof.
  apply respects_recorrer with (touch := fun _ => True);
    same_browser_side.
Qed.

Lemma guardar_en_csv_same_browser links path :
  respects same_browser (guardar_en_csv E links path).
Proof.
  apply respects_guardar_en_csv with (touch := fun _ => True);
    same_browser_side.
Qed.

Lemma no_request_ret {A} (a : A) : no_request (ret a).
Proof. intros w. reflexivity. Qed.

Lemma no_request_raise {A} e : no_request (@raise A e).
Proof. intros w. reflexivity. Qed.

Lemma no_request_bind {A B} (m : M A) (k : A -> M B) :
  no_request m -> (forall a, no_request (k a)) -> no_request (bind m k).
Proof.
  intros Hm Hk w. specialize (Hm w). unfold bind.
  destruct (m w) as [[a|e] w1]; simpl in *; [|exact Hm].
  rewrite (Hk a w1). exact Hm.
Qed.

Lemma no_request_print line : no_request (print line).
Proof. intros w. reflexivity. Qed.

Lemma no_request_open_wb path : no_request (open_wb E path).
Proof.
  intros w. unfold open_wb. destruct (open_error E (files w) path); reflexivity.
Qed.

Lemma no_request_write path data : no_request (write E path data).
Proof.
  intros w. unfold write.
  destruct (write_error E (files w) path data); reflexivity.
Qed.

Lemma no_request_bar_total r : no_request (bar_total r).
Proof.
  unfold bar_total. destruct (header_content_length r);
    auto using @no_request_ret, @no_request_raise.
Qed.

Lemma no_request_write_chunks path chunks :
  no_request (write_chunks E path chunks).
Proof.
  induction chunks as [|c cs IH]; simpl.
  - apply no_request_ret.
  - apply no_request_bind; [apply no_request_write | intros _; exact IH].
Qed.

Lemma no_request_stream_to path r : no_request (stream_to E path r).
Proof.
  unfold stream_to. apply no_request_bind; [apply no_request_write_chunks|].
  intros _. destruct (body_error r); [apply no_request_raise | apply no_request_ret].
Qed.

Lemma one_request_bind req {A B} (m : M A) (k : A -> M B) :
  one_request req m -> (forall a, no_request (k a)) -> one_request req (bind m k).
Proof.
  intros Hm Hk w. specialize (Hm w). unfold bind.
  destruct (m w) as [[a|e] w1]; simpl in *; [|exact Hm].
  rewrite (Hk a w1). exact Hm.
Qed.

Lemma one_request_try req {A} (body : M A) handles handler :
  one_request req body -> (forall e, no_request (handler e)) ->
  one_request req (try_except body handles handler).
Proof.
  intros Hb Hh w. specialize (Hb w). unfold try_except.
  destruct (body w) as [[a|e] w1]; simpl in *; [exact Hb|].
  destruct (handles e); simpl; [|exact Hb].
  rewrite (Hh e w1). exact Hb.
Qed.

Lemma one_request_requests_get url :
  one_request (pdf_request url) (requests_get E url).
Proof.
  intros w. unfold requests_get. destruct (http_get E _ _); reflexivity.
Qed.

(** Whatever happens, a download issues exactly one request. *)
Lemma descargar_pdf_one_request u d :
  one_request (pdf_request (pdf_url u)) (descargar_pdf E u d).
Proof.
  unfold descargar_pdf. fold (pdf_url u). apply one_request_try.
  - apply one_request_bind; [apply one_request_requests_get|].
    intros r. destruct (status_code r =? 200)%Z.
    + apply no_request_bind; [apply no_request_open_wb|]. intros _.
      apply no_request_bind; [apply no_request_bar_total|]. intros _.
      apply no_request_bind; [apply no_request_stream_to|]. intros _.
      apply no_request_bind; [apply no_request_print|]. intros _.
      apply no_request_ret.
    + apply no_request_bind; [apply no_request_print|]. intros _.
      apply no_request_ret.
  - intros e. apply no_request_bind; [apply no_request_print|]. intros _.
    apply no_request_ret.
Qed.

(** When the loop returns, it has issued one request per recorded link. *)
Lemma recorrer_requests hrefs acc w links w1 :
  recorrer E hrefs acc w = (Val links, w1) ->
  requests w1 =
  requests w ++ map (fun h => pdf_request (pdf_url h)) (omap href_truthy hrefs).
Proof.
  revert acc w. induction hrefs as [|href rest IH]; intros acc w; simpl.
  - unfold ret. intros [= _ <-]. rewrite app_nil_r. reflexivity.
  - destruct (href_truthy href) as [h|]; [|apply IH].
    unfold bind.
    pose proof (descargar_pdf_one_request h DATA_DIR w) as Hreq.
    destruct (descargar_pdf E h DATA_DIR w) as [[v|e] w2]; [|discriminate].
    intros H. apply IH in H. cbn [snd] in Hreq.
    rewrite H, Hreq, <- app_assoc. reflexivity.
Qed.

End MoreFrames2.

Section AppendOnly.

Variable E : env.
Variable path : string.

Lemma appended_only_refl w : appended_only path w w.
Proof. intros c Hc. exists []. rewrite app_nil_r. exact Hc. Qed.

Lemma appended_only_trans w1 w2 w3 :
  appended_only path w1 w2 -> appended_only path w2 w3 ->
  appended_only path w1 w3.
Proof.
  intros H12 H23 c Hc. destruct (H12 c Hc) as [c1 H1].
  destruct (H23 _ H1) as [c2 H2]. exists (c1 ++ c2).
  rewrite app_assoc. exact H2.
Qed.

Lemma appended_only_console w out reqs :
  appended_only path w (mkWorld (files w) out reqs (browser w)).
Proof. intros c Hc. exists []. rewrite app_nil_r. exact Hc. Qed.

Lemma appended_only_act w a :
  appended_only path w
    (mkWorld (files w) (stdout w) (requests w) (browser w ++ [a])).
Proof. intros c Hc. exists []. rewrite app_nil_r. exact Hc. Qed.

Lemma appended_only_file w q c :
  q <> path -> appended_only path w (set_files (<[q := c]> (files w)) w).
Proof.
  intros Hq c0 Hc. exists []. rewrite app_nil_r. simpl.
  rewrite lookup_insert_ne by exact Hq. exact Hc.
Qed.

(** Opening for append keeps what the file holds. *)
Lemma open_a_appended_only : respects (appended_only path) (open_a E path).
Proof.
  intros w c Hc. unfold open_a.
  destruct (open_error E (files w) path); simpl.
  - exists []. rewrite app_nil_r. exact Hc.
  - exists []. rewrite app_nil_r, Hc. apply lookup_insert_eq.
Qed.

Lemma write_appended_only data : respects (appended_only path) (write E path data).
Proof.
  intros w c Hc. unfold write.
  destruct (write_error E (files w) path data); simpl.
  - exists []. rewrite app_nil_r. exact Hc.
  - exists data. rewrite Hc. apply lookup_insert_eq.
Qed.

Lemma write_rows_appended_only links :
  respects (appended_only path) (write_rows E path links).
Proof.
  induction links as [|l ls IH]; simpl.
  - intros w. apply appended_only_refl.
  - apply respects_bind; [exact appended_only_trans| |intros _; exact IH].
    apply write_appended_only.
Qed.

(** Whatever fails, recording only appends to the list file. *)
Lemma guardar_en_csv_appended_only links :
  respects (appended_only path) (guardar_en_csv E links path).
Proof.
  unfold guardar_en_csv, guardar_en_csv_body.
  apply respects_try; [exact appended_only_trans| |].
  - apply respects_bind; [exact appended_only_trans|apply open_a_appended_only|].
    intros _.
    apply respects_bind; [exact appended_only_trans|apply write_rows_appended_only|].
    intros _. apply respects_print. exact appended_only_console.
  - intros e. apply respects_print. exact appended_only_console.
Qed.

End AppendOnly.

Ltac appended_only_side :=
  first [ exact (appended_only_refl _) | exact (appended_only_trans _)
        | exact (appended_only_console _) | exact (appended_only_act _)
        | exact (appended_only_file _) ].

Section RunFacts.

Variable E : env.

(** The search and the loop only append to (in fact never touch) the list
    file; the screenshot is another file. *)
Lemma scrape_arxiv_appended_only term :
  respects (appended_only CSV_FILE) (scrape_arxiv E term).
Proof.
  unfold scrape_arxiv.
  apply respects_bind; [exact (appended_only_trans _)| |].
  - apply respects_buscar_y_descargar with (touch := fun q => q <> CSV_FILE);
      try appended_only_side.
    apply pdf_path_not_csv.
  - intros r. unfold registrar_y_cerrar.
    apply respects_bind; [exact (appended_only_trans _)| |].
    + apply guardar_en_csv_appended_only.
    + intros _.
      apply respects_cerrar with (touch := fun q => q <> CSV_FILE);
        try appended_only_side.
      discriminate.
Qed.

(** The browser when the search and the loop end, however they end. *)
Lemma buscar_y_descargar_browser term w :
  browser (snd (buscar_y_descargar E term w)) = browser w ++ search_actions term.
Proof.
  rewrite buscar_y_descargar_eq.
  destruct (browse E _) as [msg|pg]; [reflexivity|].
  match goal with |- context [recorrer E ?h ?a ?w0] =>
    pose proof (recorrer_same_browser E h a w0) as Hloop;
    destruct (recorrer E h a w0) as [[links|e] w1] end; exact Hloop.
Qed.

(** A screenshot that returns has written the image. *)
Lemma screenshot_val pg path w w' :
  screenshot E pg path w = (Val tt, w') ->
  w' = mkWorld (<[path := page_png pg]> (files w)) (stdout w) (requests w)
               (browser w ++ [Screenshot path]).
Proof.
  unfold screenshot, bind, act, open_wb, write. cbn [files stdout requests browser].
  destruct (open_error E (files w) path); [discriminate|].
  cbn [files set_files stdout requests browser].
  destruct (write_error E _ path (page_png pg)); [discriminate|].
  intros [= <-]. unfold set_files. cbn [files stdout requests browser].
  rewrite lookup_insert_eq, insert_insert_eq. reflexivity.
Qed.

End RunFacts.

Section DownloadEdges.

Variable E : env.

(** The length header is no number: the ValueError leaves [descargar_pdf]
    after the file has been created or emptied. *)
Lemma descargar_pdf_bad_length u d w r :
  http_get E (length (requests w)) (pdf_request (pdf_url u)) = GetReturns r ->
  status_code r = 200%Z ->
  open_error E (files w) (pdf_path d u) = None ->
  header_content_length r = LengthMalformed ->
  descargar_pdf E u d w =
  (Exc (ValueError "invalid literal for int() with base 10"),
   mkWorld (<[pdf_path d u := []]> (files w)) (stdout w)
           (requests w ++ [pdf_request (pdf_url u)]) (browser w)).
Proof.
  intros Hget Hst Hopen Hlen.
  unfold descargar_pdf. fold (pdf_url u). fold (pdf_path d u).
  erewrite try_uncaught; [reflexivity| |reflexivity].
  erewrite bind_val by (unfold requests_get; rewrite Hget; reflexivity).
  rewrite Hst. change (200 =? 200)%Z with true. cbv iota.
  erewrite bind_val by (unfold open_wb; cbn [files]; rewrite Hopen; reflexivity).
  erewrite bind_exc; [reflexivity|].
  unfold bar_total. rewrite Hlen. reflexivity.
Qed.

(** An exception that leaves a [try] whose handler always returns was not
    handled. *)
Lemma try_except_escapes {A} (body : M A) handles handler w e w' :
  (forall e0 w0, exists a w1, handler e0 w0 = (Val a, w1)) ->
  try_except body handles handler w = (Exc e, w') ->
  handles e = false /\ body w = (Exc e, w').
Proof.
  intros Hh. unfold try_except.
  destruct (body w) as [[a|e0] w1]; [discriminate|].
  destruct (handles e0) eqn:He0.
  - destruct (Hh e0 w1) as (a & w2 & ->). discriminate.
  - intros [= <- <-]. auto.
Qed.

End DownloadEdges.

(* ===================================================================== *)
(** ** Further properties of the code                                     *)
(* ===================================================================== *)

(** X1: when the request itself fails (connection error, timeout),
    [descargar_pdf] prints the error and returns None; no file is touched,
    and the loop goes on with the next element. *)
Theorem descargar_pdf_network_down (E : env) (u d : string) (w : world) (msg : string) :
  http_get E (length (requests w)) (pdf_request (pdf_url u)) = GetRaises msg ->
  descargar_pdf E u d w =
    (Val None,
     mkWorld (files w)
             (stdout w ++ ["Error en la descarga de " +:+ pdf_url u +:+ ": " +:+ msg])
             (requests w ++ [pdf_request (pdf_url u)])
             (browser w)) /\
  (forall rest acc,
     PyStr.truthy u = true ->
     recorrer E (Some u :: rest) acc w =
     recorrer E rest (acc ++ [u])
       (mkWorld (files w)
                (stdout w ++ ["Error en la descarga de " +:+ pdf_url u +:+ ": " +:+ msg])
                (requests w ++ [pdf_request (pdf_url u)])
                (browser w))).
Proof.
  intros Hget. split.
  - apply descargar_pdf_get_raises, Hget.
  - intros rest acc Hu. rewrite (recorrer_step E u rest acc w Hu).
    rewrite (descargar_pdf_get_raises E u DATA_DIR w msg Hget). reflexivity.
Qed.

(** An instance of X1: the network is down. *)
Lemma descargar_pdf_network_down_witness :
  descargar_pdf Cases.E_down Demo.link1 DATA_DIR Demo.w0 =
  (Val None,
   mkWorld (files Demo.w0)
     ["Error en la descarga de https://arxiv.org/pdf/2301.04567.pdf: Connection refused"]
     [pdf_request "https://arxiv.org/pdf/2301.04567.pdf"] []).
Proof.
  refine (proj1 (descargar_pdf_network_down Cases.E_down Demo.link1 DATA_DIR
                   Demo.w0 "Connection refused" _)).
  reflexivity.
Defined.

(** X2: an exception leaves [descargar_pdf] only after a 200 response, and
    it is never a RequestException (those are all caught). *)
Theorem descargar_pdf_raises_only_after_200 (E : env) (u d : string)
    (w : world) (e : exn) (w' : world) :
  descargar_pdf E u d w = (Exc e, w') ->
  is_RequestException e = false /\
  exists r, http_get E (length (requests w)) (pdf_request (pdf_url u)) = GetReturns r
            /\ status_code r = 200%Z.
Proof.
  intros H.
  destruct (http_get E (length (requests w)) (pdf_request (pdf_url u)))
    as [msg|r] eqn:Hget.
  - rewrite (descargar_pdf_get_raises E u d w msg Hget) in H. discriminate.
  - destruct (Z.eq_dec (status_code r) 200%Z) as [Hst|Hst].
    + split; [|exists r; auto].
      unfold descargar_pdf in H. apply try_except_escapes in H; [apply H|].
      intros e0 w0. eexists _, _. reflexivity.
    + rewrite (descargar_pdf_not_200 E u d w r Hget Hst) in H. discriminate.
Qed.

(** An instance of X2: the output file cannot be opened. *)
Lemma descargar_pdf_raises_only_after_200_witness :
  is_RequestException (OSError "[Errno 13] Permission denied") = false /\
  exists r, Demo.answers 0 (pdf_request (pdf_url Demo.link1)) = GetReturns r
            /\ status_code r = 200%Z.
Proof.
  refine (descargar_pdf_raises_only_after_200 Cases.E_denied Demo.link1 DATA_DIR
            Demo.w0 (OSError "[Errno 13] Permission denied")
            (snd (descargar_pdf Cases.E_denied Demo.link1 DATA_DIR Demo.w0)) _).
  vm_compute. reflexivity.
Defined.

(** X3: when the output file cannot be opened after a 200 response, the
    OSError is not caught: it leaves [descargar_pdf], nothing is printed and
    no file is changed. *)
Theorem descargar_pdf_open_refused (E : env) (u d : string) (w : world)
    (r : response) (msg : string) :
  http_get E (length (requests w)) (pdf_request (pdf_url u)) = GetReturns r ->
  status_code r = 200%Z ->
  open_error E (files w) (pdf_path d u) = Some msg ->
  descargar_pdf E u d w =
    (Exc (OSError msg),
     mkWorld (files w) (stdout w) (requests w ++ [pdf_request (pdf_url u)])
             (browser w)).
Proof.
  intros Hget Hst Hopen.
  unfold descargar_pdf. fold (pdf_url u). fold (pdf_path d u).
  erewrite try_uncaught; [reflexivity| |reflexivity].
  erewrite bind_val by (unfold requests_get; rewrite Hget; reflexivity).
  rewrite Hst. change (200 =? 200)%Z with true. cbv iota.
  erewrite bind_exc; [reflexivity|].
  unfold open_wb. cbn [files]. rewrite Hopen. reflexivity.
Qed.

(** An instance of X3. *)
Lemma descargar_pdf_open_refused_witness :
  descargar_pdf Cases.E_denied Demo.link1 DATA_DIR Demo.w0 =
  (Exc (OSError "[Errno 13] Permission denied"),
   mkWorld (files Demo.w0) [] [pdf_request "https://arxiv.org/pdf/2301.04567.pdf"] []).
Proof.
  refine (descargar_pdf_open_refused Cases.E_denied Demo.link1 DATA_DIR Demo.w0
            (mkResponse 200 (LengthInt 14) Demo.body1 None)
            "[Errno 13] Permission denied" _ _ _); reflexivity.
Defined.

(** X4: when the search or a download raises, the run raises the same
    exception before the recording step: the list file and the screenshot
    file are as they were. *)
Theorem run_aborted_before_recording (E : env) (term : string) (w : world)
    (e : exn) (w1 : world) :
  buscar_y_descargar E term w = (Exc e, w1) ->
  scrape_arxiv E term w = (Exc e, w1) /\
  files w1 !! CSV_FILE = files w !! CSV_FILE /\
  files w1 !! "example.png" = files w !! "example.png".
Proof.
  intros H.
  pose proof (buscar_y_descargar_frame E term w) as Hf.
  rewrite H in Hf. cbn [snd] in Hf.
  split; [unfold scrape_arxiv; apply (bind_exc _ _ _ _ _ H)|].
  split; apply Hf; reflexivity.
Qed.

(** An instance of X4: the first download cannot open its file. *)
Lemma run_aborted_before_recording_witness :
  fst (scrape_arxiv Cases.E_denied "learning" Demo.w0)
    = Exc (OSError "[Errno 13] Permission denied") /\
  files (snd (scrape_arxiv Cases.E_denied "learning" Demo.w0)) !! CSV_FILE
    = files Demo.w0 !! CSV_FILE.
Proof.
  destruct (run_aborted_before_recording Cases.E_denied "learning" Demo.w0
              (OSError "[Errno 13] Permission denied")
              (snd (buscar_y_descargar Cases.E_denied "learning" Demo.w0)))
    as (Hrun & Hcsv & _).
  - vm_compute. reflexivity.
  - rewrite Hrun. split; [reflexivity | exact Hcsv].
Defined.

(** X5: when the Content-Length header of a 200 response is not a number,
    the ValueError of [int()] leaves [descargar_pdf]; by then the output
    file has been opened for writing, so it exists and is empty, whatever it
    held before. *)
Theorem descargar_pdf_malformed_length (E : env) (u d : string) (w : world)
    (r : response) :
  http_get E (length (requests w)) (pdf_request (pdf_url u)) = GetReturns r ->
  status_code r = 200%Z ->
  open_error E (files w) (pdf_path d u) = None ->
  header_content_length r = LengthMalformed ->
  exists msg w',
    descargar_pdf E u d w = (Exc (ValueError msg), w') /\
    files w' !! pdf_path d u = Some [] /\
    files w' = <[pdf_path d u := []]> (files w) /\
    stdout w' = stdout w.
Proof.
  intros Hget Hst Hopen Hlen. eexists _, _.
  split; [apply (descargar_pdf_bad_length E u d w r Hget Hst Hopen Hlen)|].
  cbn [files stdout]. split; [apply lookup_insert_eq|]. split; reflexivity.
Qed.

(** An instance of X5: an earlier download of the same link is emptied. *)
Lemma descargar_pdf_malformed_length_witness :
  files Cases.w_old !! "data/2301.04567.pdf" = Some Demo.body2 /\
  exists msg w',
    descargar_pdf Cases.E_malformed Demo.link1 DATA_DIR Cases.w_old
      = (Exc (ValueError msg), w') /\
    files w' !! "data/2301.04567.pdf" = Some [].
Proof.
  split; [reflexivity|].
  destruct (descargar_pdf_malformed_length Cases.E_malformed Demo.link1 DATA_DIR
              Cases.w_old (mkResponse 200 LengthMalformed Demo.body1 None))
    as (msg & w' & Hrun & Hfile & _); try reflexivity.
  exists msg, w'. split; [exact Hrun | exact Hfile].
Defined.

(** X6: whatever the outcome, a call of [descargar_pdf] changes no file but
    its own output file, issues exactly one request (to the download URL,
    streaming, timeout 10, with the user-agent header) and performs no
    browser action. *)
Theorem descargar_pdf_footprint (E : env) (u d : string) (w : world) :
  (forall p, p <> pdf_path d u ->
             files (snd (descargar_pdf E u d w)) !! p = files w !! p) /\
  requests (snd (descargar_pdf E u d w)) =
    requests w ++ [mkRequest (pdf_url u) true 10 user_agent] /\
  browser (snd (descargar_pdf E u d w)) = browser w.
Proof.
  split; [apply descargar_pdf_frame|].
  split; [apply descargar_pdf_one_request | apply descargar_pdf_same_browser].
Qed.

(** X7: when the download loop returns, it has issued exactly one request
    per recorded link, in the order of the links, each to the download URL
    of its link. *)
Theorem one_request_per_link (E : env) (hrefs : list (option string))
    (w : world) (links : list string) (w1 : world) :
  recorrer E hrefs [] w = (Val links, w1) ->
  requests w1 = requests w ++ map (fun h => pdf_request (pdf_url h)) links /\
  length (requests w1) = length (requests w) + length links.
Proof.
  intros H.
  pose proof (recorrer_links E hrefs [] w links w1 H) as Hl.
  pose proof (recorrer_requests E hrefs [] w links w1 H) as Hr.
  cbn [app] in Hl. rewrite <- Hl in Hr. split; [exact Hr|].
  rewrite Hr, length_app, length_map. reflexivity.
Qed.

(** An instance of X7: the three links of the demo page. *)
Lemma one_request_per_link_witness :
  map req_url (requests (snd (recorrer Demo.E_ok (page_hrefs Demo.results) [] Demo.w0)))
  = ["https://arxiv.org/pdf/2301.04567.pdf";
     "https://arxiv.org/pdf/2301.04567.pdf";
     "https://arxiv.org/pdf/2302.00001.pdf"].
Proof.
  destruct (one_request_per_link Demo.E_ok (page_hrefs Demo.results) Demo.w0
              [Demo.link1; Demo.link2; Demo.link3]
              (snd (recorrer Demo.E_ok (page_hrefs Demo.results) [] Demo.w0)))
    as [Hreq _].
  - vm_compute. reflexivity.
  - rewrite Hreq. reflexivity.
Defined.

(** X8: whatever the downloads do, the loop changes no file outside
    [data/] (so never the list file nor the screenshot) and performs no
    browser action. *)
Theorem recorrer_footprint (E : env) (hrefs : list (option string))
    (acc : list string) (w : world) :
  (forall p, under_data p = false ->
             files (snd (recorrer E hrefs acc w)) !! p = files w !! p) /\
  files (snd (recorrer E hrefs acc w)) !! CSV_FILE = files w !! CSV_FILE /\
  browser (snd (recorrer E hrefs acc w)) = browser w.
Proof.
  split; [apply recorrer_frame|].
  split; [apply recorrer_frame; reflexivity | apply recorrer_same_browser].
Qed.

(** X9: [guardar_en_csv] only appends.  Whatever the file system does and
    however the call ends, what the file held before is a prefix of what it
    holds afterwards. *)
Theorem guardar_en_csv_only_appends (E : env) (links : list string)
    (path : string) (w : world) (c : list byte) :
  files w !! path = Some c ->
  exists c', files (snd (guardar_en_csv E links path w)) !! path = Some (c ++ c').
Proof. apply guardar_en_csv_appended_only. Qed.

(** An instance of X9: the list file cannot be opened, its row stays. *)
Lemma guardar_en_csv_only_appends_witness :
  exists c',
    files (snd (guardar_en_csv Demo.E_readonly [Demo.link1] CSV_FILE Demo.w0))
      !! CSV_FILE
    = Some (encode (Csv.row "https://arxiv.org/pdf/1706.03762") ++ c').
Proof.
  refine (guardar_en_csv_only_appends Demo.E_readonly [Demo.link1] CSV_FILE
            Demo.w0 (encode (Csv.row "https://arxiv.org/pdf/1706.03762")) _).
  reflexivity.
Defined.

(** X17: a run never loses rows of the list file.  Whatever the page, the
    network and the file system do, and however the run ends, what the list
    file held before is a prefix of what it holds afterwards. *)
Theorem list_file_only_grows (E : env) (term : string) (w : world) (c : list byte) :
  files w !! CSV_FILE = Some c ->
  exists c', files (snd (scrape_arxiv E term w)) !! CSV_FILE = Some (c ++ c').
Proof. apply scrape_arxiv_appended_only. Qed.

(** An instance of X17: the run is aborted by the timeout of the wait. *)
Lemma list_file_only_grows_witness :
  exists c',
    files (snd (scrape_arxiv Demo.E_timeout "learning" Demo.w0)) !! CSV_FILE
    = Some (encode (Csv.row "https://arxiv.org/pdf/1706.03762") ++ c').
Proof.
  refine (list_file_only_grows Demo.E_timeout "learning" Demo.w0
            (encode (Csv.row "https://arxiv.org/pdf/1706.03762")) _).
  reflexivity.
Defined.

(** X10: with no link to record, [guardar_en_csv] on a writable path still
    opens the file: an absent file is created empty, an existing one keeps
    its content, and the count 0 is printed. *)
Theorem guardar_en_csv_no_links (E : env) (path : string) (w : world) :
  writable E path ->
  guardar_en_csv E [] path w =
    (Val tt,
     mkWorld (<[path := default [] (files w !! path)]> (files w))
             (stdout w ++ ["0 enlaces guardados en " +:+ path])
             (requests w) (browser w)).
Proof.
  intros Hw. rewrite (guardar_en_csv_ok E [] path w Hw).
  cbn [Csv.rows]. change (encode EmptyString) with (@nil byte).
  rewrite app_nil_r. reflexivity.
Qed.

(** An instance of X10: no list file yet. *)
Lemma guardar_en_csv_no_links_witness :
  files (snd (guardar_en_csv Demo.E_ok [] CSV_FILE (mkWorld ∅ [] [] []))) !! CSV_FILE
  = Some [].
Proof.
  rewrite (guardar_en_csv_no_links Demo.E_ok CSV_FILE (mkWorld ∅ [] [] [])).
  - reflexivity.
  - split; reflexivity.
Defined.

(** X11: on a writable path, recording [l1] and then [l2] leaves the same
    files as recording [l1 ++ l2] at once. *)
Theorem guardar_en_csv_twice (E : env) (l1 l2 : list string) (path : string)
    (w : world) :
  writable E path ->
  files (snd (guardar_en_csv E l2 path (snd (guardar_en_csv E l1 path w)))) =
  files (snd (guardar_en_csv E (l1 ++ l2) path w)).
Proof.
  intros Hw. rewrite !(guardar_en_csv_ok E _ path _ Hw). cbn [snd files].
  rewrite lookup_insert_eq, insert_insert_eq. cbn [default].
  rewrite rows_app, encode_app, app_assoc. reflexivity.
Qed.

(** An instance of X11. *)
Lemma guardar_en_csv_twice_witness :
  files (snd (guardar_en_csv Demo.E_ok [Demo.link3] CSV_FILE
                (snd (guardar_en_csv Demo.E_ok [Demo.link1] CSV_FILE Demo.w0)))) =
  files (snd (guardar_en_csv Demo.E_ok [Demo.link1; Demo.link3] CSV_FILE Demo.w0)).
Proof.
  refine (guardar_en_csv_twice Demo.E_ok [Demo.link1] [Demo.link3] CSV_FILE Demo.w0 _).
  split; reflexivity.
Defined.

(** X12: the rows written determine the links.  On a writable path, two
    lists of links that leave the same file content when recorded from the
    same world are the same list: quoting and the line terminator lose
    nothing, also for links that hold commas, quotes or line breaks. *)
Theorem list_file_determines_links (E : env) (l1 l2 : list string)
    (path : string) (w : world) :
  writable E path ->
  files (snd (guardar_en_csv E l1 path w)) !! path =
  files (snd (guardar_en_csv E l2 path w)) !! path ->
  l1 = l2.
Proof.
  intros Hw. rewrite !(guardar_en_csv_ok E _ path _ Hw). cbn [snd files].
  rewrite !lookup_insert_eq. intros [= H].
  apply app_inv_head in H. apply rows_inj, encode_inj, H.
Qed.

(** An instance of X12. *)
Lemma list_file_determines_links_witness :
  [Demo.link1; Demo.link3] = [Demo.link1; Demo.link3].
Proof.
  refine (list_file_determines_links Demo.E_ok [Demo.link1; Demo.link3]
            [Demo.link1; Demo.link3] CSV_FILE Demo.w0 _ _).
  - split; reflexivity.
  - reflexivity.
Defined.

Section RunEnds.

Variable E : env.

(** The world after the recording, the screenshot, the title line and the
    close, when they all return. *)
Lemma registrar_y_cerrar_val pg links w w' :
  registrar_y_cerrar E pg links w = (Val tt, w') ->
  browser w' = browser w ++ [Screenshot "example.png"; Close] /\
  files w' !! "example.png" = Some (page_png pg) /\
  last (stdout w') = Some ("Página cargada: " +:+ page_title pg).
Proof.
  unfold registrar_y_cerrar. intros H.
  pose proof (guardar_en_csv_same_browser E links CSV_FILE w) as Hb.
  unfold bind at 1 in H.
  destruct (guardar_en_csv E links CSV_FILE w) as [[[]|e] w1]; [|discriminate].
  cbn [snd] in Hb. unfold bind at 1 in H.
  destruct (screenshot E pg "example.png" w1) as [[[]|e] w2] eqn:Hs; [|discriminate].
  apply screenshot_val in Hs. subst w2.
  unfold bind, print, act in H. cbn [files stdout requests browser] in H.
  injection H as <-. cbn [files stdout requests browser].
  rewrite Hb, <- app_assoc, last_app. cbn [app].
  split; [reflexivity|]. split; [apply lookup_insert_eq | reflexivity].
Qed.

End RunEnds.

(** X13: a run that returns normally has seen the result page render, has
    performed exactly the search actions, the screenshot and the close, has
    written the page image to example.png, and its last printed line is the
    page title line. *)
Theorem completed_run (E : env) (term : string) (w w' : world) :
  scrape_arxiv E term w = (Val tt, w') ->
  exists pg,
    browse E (browser w ++ search_actions term) = WaitRenders pg /\
    browser w' = browser w ++ search_actions term
                   ++ [Screenshot "example.png"; Close] /\
    files w' !! "example.png" = Some (page_png pg) /\
    last (stdout w') = Some ("Página cargada: " +:+ page_title pg).
Proof.
  intros H. unfold scrape_arxiv in H. unfold bind at 1 in H.
  pose proof (buscar_y_descargar_browser E term w) as Hb.
  pose proof (buscar_y_descargar_eq E term w) as Heq.
  destruct (buscar_y_descargar E term w) as [[[pg links]|e] w1]; [|discriminate].
  cbn [snd fst] in *.
  exists pg. split.
  - destruct (browse E _) as [msg|pg']; [discriminate|].
    destruct (recorrer E _ _ _) as [[l|e] w2]; [|discriminate].
    injection Heq as <- _ _. reflexivity.
  - destruct (registrar_y_cerrar_val E pg links w1 w' H) as (Hbr & Hpng & Hout).
    rewrite Hbr, Hb, <- app_assoc. auto.
Qed.

(** An instance of X13. *)
Lemma completed_run_witness :
  files (snd (scrape_arxiv Demo.E_ok "learning" Demo.w0)) !! "example.png"
    = Some (encode "PNG") /\
  last (browser (snd (scrape_arxiv Demo.E_ok "learning" Demo.w0))) = Some Close.
Proof.
  destruct (completed_run Demo.E_ok "learning" Demo.w0
              (snd (scrape_arxiv Demo.E_ok "learning" Demo.w0)))
    as (pg & Hpg & Hbr & Hpng & _).
  - vm_compute. reflexivity.
  - injection Hpg as <-. split; [exact Hpng|].
    rewrite Hbr. reflexivity.
Defined.



(** X15: the recording, the screenshot and the close leave every file
    under [data/] as it is, however they end: what was downloaded stays. *)
Theorem recording_keeps_downloads (E : env) (pg : page) (links : list string)
    (w : world) (p : string) :
  under_data p = true ->
  files (snd (registrar_y_cerrar E pg links w)) !! p = files w !! p.
Proof.
  intros Hp.
  assert (H : respects (same_files (fun q => under_data q = true))
                       (registrar_y_cerrar E pg links)).
  { apply respects_registrar_y_cerrar
      with (touch := fun q => under_data q = false); try frame_side; reflexivity. }
  apply H, Hp.
Qed.

(** An instance of X15: a downloaded file when the list file is read-only. *)
Lemma recording_keeps_downloads_witness :
  files (snd (registrar_y_cerrar Demo.E_readonly Demo.results [Demo.link1] Cases.w_old))
    !! "data/2301.04567.pdf" = Some Demo.body2.
Proof.
  rewrite (recording_keeps_downloads Demo.E_readonly Demo.results [Demo.link1]
             Cases.w_old "data/2301.04567.pdf").
  - reflexivity.
  - reflexivity.
Defined.

(** X16: the extension is appended without looking at the link: a link
    whose last segment already ends in .pdf is requested and stored with a
    doubled extension. *)
Theorem extension_always_appended (p s : string) :
  PyStr.contains slash s = false ->
  pdf_url (p +:+ "/" +:+ s +:+ ".pdf") = "https://arxiv.org/pdf/" +:+ s +:+ ".pdf.pdf" /\
  pdf_path DATA_DIR (p +:+ "/" +:+ s +:+ ".pdf") = "data/" +:+ s +:+ ".pdf.pdf".
Proof.
  intros Hs.
  assert (Hid : file_id (p +:+ "/" +:+ s +:+ ".pdf") = s +:+ ".pdf").
  { apply (file_id_after_last_slash p (s +:+ ".pdf")).
    rewrite contains_app, Hs. reflexivity. }
  split.
  - unfold pdf_url, pdf_url_of. rewrite Hid, string_app_assoc. reflexivity.
  - rewrite pdf_path_data, Hid, string_app_assoc. reflexivity.
Qed.

(** An instance of X16. *)
Lemma extension_always_appended_witness :
  pdf_url "https://arxiv.org/pdf/2301.04567.pdf"
  = "https://arxiv.org/pdf/2301.04567.pdf.pdf".
Proof.
  refine (proj1 (extension_always_appended "https://arxiv.org/pdf" "2301.04567" _)).
  reflexivity.
Defined.
